(** * Stock analysis agent: a shallow embedding of [app.py]

    The application is a Flask program with two routes, [login] and [home],
    and a handful of helpers that call out to third-party services.  The
    embedding keeps the helpers and the routes one to one with the source.

    - Python values that cross the boundaries of the program (decoded JSON,
      cells of the symbol catalog) are values of [pyval].
    - Closing prices are binary64 floats, as in pandas; they are Rocq's
      primitive floats, so the percentage change is computed with the very
      same IEEE operations.
    - A Python call either returns or raises: [outcome].
    - The external collaborators (pandas, Alpha Vantage, the news search
      provider, [requests], the agent runtime) are the fields of the class
      [Services]; each one transforms an abstract world and may raise.  Pure
      library functions (TextBlob's polarity, BeautifulSoup's paragraph
      extraction, [repr], [json.dumps], plotly's [to_html]) are the fields of
      [Library].
    - Every call to a collaborator is recorded in the [calls] of the state, in
      program order, so that "is invoked" and "is not invoked" are statements
      about that list. *)

From Stdlib Require Import ZArith String Ascii List Floats.
From stdpp Require Import gmap strings list pretty.

Open Scope string_scope.
Open Scope list_scope.
Open Scope Z_scope.

(** ** Python values and exceptions *)

#[local] Set Warnings "-register-all".

Inductive pyval :=
| PyNone
| PyBool (b : bool)
| PyInt (n : Z)
| PyFloat (x : float)
| PyStr (s : string)
| PyList (items : list pyval)
| PyDict (entries : list (string * pyval)).

(** An instance of a subclass of [Exception]: its class name and what [str]
    gives for it.  [KeyboardInterrupt] and [SystemExit], which are not
    subclasses of [Exception], are not raised by any collaborator and are
    outside the embedding. *)
Record exn := Exn { exn_type : string; exn_str : string }.

Inductive outcome (A : Type) :=
| Returned (a : A)
| Raised (e : exn).
Arguments Returned {A} a.
Arguments Raised {A} e.

Definition raises {A} (o : outcome A) : bool :=
  match o with Returned _ => false | Raised _ => true end.

(** ** Data of the application *)

(** One 5-minute bar of the intraday frame; the index is the timestamp and
    the columns are those of Alpha Vantage's pandas output. *)
Record bar := Bar {
  timestamp : string;
  open_ : float;   (* '1. open' *)
  high : float;    (* '2. high' *)
  low : float;     (* '3. low' *)
  close : float;   (* '4. close' *)
  volume : float   (* '5. volume' *)
}.

(** The intraday frame: its rows in the order of the frame, [iloc[0]] first. *)
Definition DataFrame := list bar.

(** The frame read from the catalog file: column name to cells.  It is a
    abbreviation rather than a constant so that map lemmas apply to it directly. *)
Abbreviation csv_table := (gmap string (list pyval)).

Record http_response := HttpResponse { status_code : Z; text : string }.

Record LLM := { model : string; api_key : string }.

Record Agent := {
  role : string;
  goal : string;
  allow_delegation : bool;
  backstory : string;
  agent_llm : LLM
}.

Record Task := {
  description : string;
  agent : Agent;
  expected_output : string
}.

Inductive Process := sequential | hierarchical.

Record Crew := {
  agents : list Agent;
  tasks : list Task;
  process : Process
}.

(** The plotly figure after [add_trace] and [update_layout]. *)
Record Figure := {
  trace_x : list string;
  trace_y : list float;
  trace_mode : string;
  trace_name : string;
  line_color : string;
  title : string;
  xaxis_title : string;
  yaxis_title : string;
  template : string;
  xaxis_rangeslider_visible : bool
}.

(** ** The web layer *)

Inductive http_method := GET | HEAD | POST.

Record request := Request {
  method : http_method;
  form : gmap string string
}.

(** The keyword arguments of [render_template('index.html', ...)]. *)
Record index_context := {
  output_text : string;
  graph_html : option string;
  stock_symbols : list pyval;
  stock_price : option float;
  price_change_text : option string;
  price_change_class : option string
}.

Inductive response :=
| Redirect (location : string)
| RenderLogin                          (* render_template('login.html') *)
| RenderIndex (ctx : index_context).   (* render_template('index.html', ...) *)

(** ** Calls to the collaborators, as recorded in the state *)

Inductive event :=
| ReadCsv (path : string)             (* pd.read_csv *)
| Stdout (line : string)              (* print *)
| GetIntraday (symbol : string)       (* TimeSeries.get_intraday *)
| NewsSearch (payload : string)       (* POST /news on google.serper.dev *)
| HttpGet (url : pyval)               (* requests.get *)
| Polarity (content : string)         (* TextBlob(text).sentiment.polarity *)
| Kickoff (crew : Crew)               (* crew.kickoff *)
| ToHtml (fig : Figure).              (* fig.to_html *)

Definition is_news_discovery (ev : event) : bool :=
  match ev with NewsSearch _ => true | _ => false end.
Definition is_article_fetch (ev : event) : bool :=
  match ev with HttpGet _ => true | _ => false end.
Definition is_sentiment_scoring (ev : event) : bool :=
  match ev with Polarity _ => true | _ => false end.
Definition is_agent_run (ev : event) : bool :=
  match ev with Kickoff _ => true | _ => false end.
Definition is_chart_render (ev : event) : bool :=
  match ev with ToHtml _ => true | _ => false end.

(** ** Configuration, libraries and services *)

(** The module [config] is not part of the sources; its four constants are
    taken as parameters. *)
Class Config := {
  SECRET_KEY : string;
  GROQ_API_KEY : string;
  ALPHA_VANTAGE_API_KEY : string;
  SERPER_API_KEY : string
}.

Class Library := {
  (** [repr] of a Python value. *)
  py_repr : pyval -> string;
  json_dumps : pyval -> string;
  (** [TextBlob(text).sentiment.polarity]. *)
  polarity : string -> float;
  (** [[p.get_text() for p in BeautifulSoup(html, 'html.parser').find_all('p')]]. *)
  soup_paragraphs : string -> outcome (list string);
  fig_to_html : Figure -> string
}.

Class Services (W : Type) := {
  pd_read_csv : string -> W -> outcome csv_table * W;
  (** [TimeSeries(key, output_format='pandas').get_intraday(symbol, interval,
      outputsize)]: the frame and the metadata. *)
  ts_get_intraday :
    string -> string -> string -> string -> W -> outcome (DataFrame * pyval) * W;
  (** The exchange with the news search provider: [conn.request] with the
      payload and the headers, [getresponse], [read], [decode] and
      [json.loads] together.  It returns the decoded document or raises what
      any of the five raises. *)
  serper_news : string -> list (string * string) -> W -> outcome pyval * W;
  requests_get : pyval -> W -> outcome http_response * W;
  crew_kickoff : Crew -> W -> outcome string * W
}.

(** ** State of a request and the monad of the program *)

Record state (W : Type) := State {
  world : W;
  session : gmap string string;   (* flask.session *)
  flashes : list string;          (* messages queued by flask.flash *)
  calls : list event
}.
Arguments State {W} world session flashes calls.
Arguments world {W} s.
Arguments session {W} s.
Arguments flashes {W} s.
Arguments calls {W} s.

Definition M (W A : Type) : Type := state W -> outcome A * state W.

Definition ret {W A} (a : A) : M W A := fun s => (Returned a, s).

Definition raise {W A} (e : exn) : M W A := fun s => (Raised e, s).

Definition bind {W A B} (m : M W A) (k : A -> M W B) : M W B :=
  fun s =>
    match m s with
    | (Returned a, s') => k a s'
    | (Raised e, s') => (Raised e, s')
    end.

(** [try: m except Exception as e: h e]. *)
Definition try_except {W A} (m : M W A) (h : exn -> M W A) : M W A :=
  fun s =>
    match m s with
    | (Returned a, s') => (Returned a, s')
    | (Raised e, s') => h e s'
    end.

(** A pure library call that may raise. *)
Definition lift {W A} (o : outcome A) : M W A := fun s => (o, s).

Definition record {W} (ev : event) : M W unit :=
  fun s => (Returned tt, State (world s) (session s) (flashes s) (calls s ++ [ev])).

(** A call to a service: the call is recorded, then the world answers. *)
Definition call {W A} (ev : event) (f : W -> outcome A * W) : M W A :=
  fun s =>
    let '(r, w) := f (world s) in
    (r, State w (session s) (flashes s) (calls s ++ [ev])).

Definition set_session {W} (k v : string) : M W unit :=
  fun s => (Returned tt, State (world s) (<[k := v]> (session s)) (flashes s) (calls s)).

Definition flash {W} (msg : string) : M W unit :=
  fun s => (Returned tt, State (world s) (session s) (flashes s ++ [msg]) (calls s)).

Notation "x <- m ;; k" := (bind m (fun x => k))
  (at level 100, m at next level, right associativity).
Notation "m ;;; k" := (bind m (fun _ => k))
  (at level 100, right associativity).

(** ** Python built-ins used by the program *)

(** [str(v)]: a string is itself, anything else prints as its [repr]. *)
Definition py_str `{Library} (v : pyval) : string :=
  match v with
  | PyStr s => s
  | _ => py_repr v
  end.

Fixpoint dict_lookup (k : string) (entries : list (string * pyval)) : option pyval :=
  match entries with
  | [] => None
  | (k', v) :: rest => if String.eqb k' k then Some v else dict_lookup k rest
  end.

Definition type_name (v : pyval) : string :=
  match v with
  | PyNone => "NoneType"
  | PyBool _ => "bool"
  | PyInt _ => "int"
  | PyFloat _ => "float"
  | PyStr _ => "str"
  | PyList _ => "list"
  | PyDict _ => "dict"
  end.

(** [v.get(k, default)]: only a dict has the method. *)
Definition py_get (v : pyval) (k : string) (default : pyval) : outcome pyval :=
  match v with
  | PyDict entries =>
      Returned (match dict_lookup k entries with Some x => x | None => default end)
  | _ =>
      Raised (Exn "AttributeError"
                  ("'" +:+ type_name v +:+ "' object has no attribute 'get'"))
  end.

Fixpoint chars (s : string) : list pyval :=
  match s with
  | EmptyString => []
  | String c rest => PyStr (String c EmptyString) :: chars rest
  end.

(** What [for x in v] ranges over: the items of a list, the characters of a
    string, the keys of a dict; the other values are not iterable. *)
Definition py_iter (v : pyval) : outcome (list pyval) :=
  match v with
  | PyList items => Returned items
  | PyStr s => Returned (chars s)
  | PyDict entries => Returned (map (fun kv => PyStr (fst kv)) entries)
  | _ => Raised (Exn "TypeError" ("'" +:+ type_name v +:+ "' object is not iterable"))
  end.

(** [sep.join(parts)]. *)
Fixpoint join (sep : string) (parts : list string) : string :=
  match parts with
  | [] => ""
  | [p] => p
  | p :: rest => p +:+ sep +:+ join sep rest
  end.

(** *** [format(x, '+.2f')]

    Python prints the decimal expansion of the exact binary value, rounded to
    two places, ties to even.  [round_cents m e] is the integer nearest to
    [m * 2^e * 100]. *)
Definition round_cents (m : positive) (e : Z) : Z :=
  if 0 <=? e then Z.pos m * 2 ^ e * 100
  else
    let den := 2 ^ (- e) in
    let num := Z.pos m * 100 in
    let q := num / den in
    let r := num mod den in
    match 2 * r ?= den with
    | Lt => q
    | Gt => q + 1
    | Eq => if Z.even q then q else q + 1
    end.

Definition digit (d : Z) : ascii := ascii_of_nat (48 + Z.to_nat d).

Definition two_digits (n : Z) : string :=
  String (digit (n / 10)) (String (digit (n mod 10)) "").

Definition fixed2 (cents : Z) : string :=
  pretty (cents / 100) +:+ "." +:+ two_digits (cents mod 100).

Definition format_plus_2f (x : float) : string :=
  match Prim2SF x with
  | S754_nan => "+nan"
  | S754_infinity s => if s then "-inf" else "+inf"
  | S754_zero s => (if s then "-" else "+") +:+ "0.00"
  | S754_finite s m e => (if s then "-" else "+") +:+ fixed2 (round_cents m e)
  end.

(** ** The program *)

Section App.
Context `{Config} `{Library} {W : Type} `{Services W}.

Definition llm : LLM :=
  {| model := "groq/llama3-8b-8192"; api_key := GROQ_API_KEY |}.

Definition API_KEY : string := ALPHA_VANTAGE_API_KEY.

(** [os.path.join('static', 'stock_symbols.csv')]. *)
Definition CSV_FILE_PATH : string := "static/stock_symbols.csv".

Definition USER_CREDENTIALS : gmap string string :=
  {[ "admin" := "password123" ]}.

(** *** Helper functions *)

Definition get_stock_symbols : M W (list pyval) :=
  try_except
    (df <- call (ReadCsv CSV_FILE_PATH) (pd_read_csv CSV_FILE_PATH) ;;
     match df !! "symbol" with
     | Some column => ret column
     | None => raise (Exn "KeyError" "'symbol'")
     end)
    (fun e =>
       record (Stdout ("Error reading CSV: " +:+ exn_str e)) ;;;
       ret []).

Definition get_intraday_data (symbol : string) : M W DataFrame :=
  r <- call (GetIntraday symbol) (ts_get_intraday API_KEY symbol "5min" "compact") ;;
  let '(data, meta_data) := r in
  ret data.

Definition get_latest_price (df : DataFrame) : option float :=
  match df with
  | [] => None
  | first :: _ => Some (close first)
  end.

Definition news_payload (symbol : string) : string :=
  json_dumps (PyDict [ ("q", PyStr (symbol +:+ " stock news"));
                       ("num", PyInt 10);
                       ("tbs", PyStr "qdr:d") ]).

Definition news_headers : list (string * string) :=
  [ ("X-API-KEY", SERPER_API_KEY); ("Content-Type", "application/json") ].

(** The comprehension [[article.get('link', '') for article in ...]]. *)
Fixpoint article_links (articles : list pyval) : outcome (list pyval) :=
  match articles with
  | [] => Returned []
  | article :: rest =>
      match py_get article "link" (PyStr "") with
      | Raised e => Raised e
      | Returned link =>
          match article_links rest with
          | Raised e => Raised e
          | Returned links => Returned (link :: links)
          end
      end
  end.

Definition get_stock_news (symbol : string) : M W (list pyval) :=
  let payload := news_payload symbol in
  response_data <- call (NewsSearch payload) (serper_news payload news_headers) ;;
  news <- lift (py_get response_data "news" (PyList [])) ;;
  articles <- lift (py_iter news) ;;
  lift (article_links articles).

Definition fetch_article_content (url : pyval) : M W string :=
  try_except
    (res <- call (HttpGet url) (requests_get url) ;;
     if status_code res =? 200 then
       paragraphs <- lift (soup_paragraphs (text res)) ;;
       ret (join " " paragraphs)
     else ret "Failed to fetch content")
    (fun e => ret (exn_str e)).

(** The three-way test of [analyze_article_content] on the polarity. *)
Definition sentiment_label (p : float) : string :=
  if (0 <? p)%float then "Positive sentiment detected"
  else if (p <? 0)%float then "Negative sentiment detected"
  else "Neutral sentiment detected".

Definition analyze_article_content (content : string) : M W string :=
  record (Polarity content) ;;;
  ret (sentiment_label (polarity content)).

(** The loop of [get_article_details]; [results] is the list built so far. *)
Fixpoint article_details_from (links : list pyval) (results : list string)
  : M W (list string) :=
  match links with
  | [] => ret results
  | link :: rest =>
      content <- fetch_article_content link ;;
      sentiment <- analyze_article_content content ;;
      article_details_from rest
        (results ++ ["Article from " +:+ py_str link +:+ ": " +:+ sentiment])
  end.

Definition get_article_details (links : list pyval) : M W (list string) :=
  article_details_from links [].

Definition create_agents : Agent * Agent * Agent :=
  let classifier :=
    {| role := "stock classifier";
       goal := "Accurately classify the stock based on its performance and market news";
       allow_delegation := false;
       backstory := "Classify stocks as Bullish, Bearish, or Neutral based on market data and news.";
       agent_llm := llm |} in
  let recommender :=
    {| role := "stock recommender";
       goal := "Provide a buy, sell, or hold recommendation based on stock classification.";
       allow_delegation := false;
       backstory := "Provide a clear recommendation. If sentiment is negative, suggest 'Sell'.";
       agent_llm := llm |} in
  let researcher :=
    {| role := "stock news researcher";
       goal := "Research and analyze stock news to provide insights.";
       allow_delegation := false;
       backstory := "Analyze news and extract insights in 10 detailed points without sharing links.";
       agent_llm := llm |} in
  (classifier, recommender, researcher).

(** werkzeug's [BadRequestKeyError] as [request.form[key]] raises it: its
    [str] is the text of the 400 answer; the missing key is kept in the
    arguments of the exception, which the embedding does not hold. *)
Definition bad_request_key_error : exn :=
  Exn "BadRequestKeyError"
      "400 Bad Request: The browser (or proxy) sent a request that this server could not understand.".

(** [request.form[key]]: a missing field raises (Flask answers 400). *)
Definition form_field (req : request) (key : string) : M W string :=
  match form req !! key with
  | Some v => ret v
  | None => raise bad_request_key_error
  end.

(** *** Login route *)

Definition login (req : request) : M W response :=
  match method req with
  | POST =>
      user <- form_field req "username" ;;
      pwd <- form_field req "password" ;;
      if bool_decide (USER_CREDENTIALS !! user = Some pwd) then
        set_session "username" user ;;;
        ret (Redirect "/home")
      else
        flash "Invalid credentials." ;;;
        ret RenderLogin
  | _ => ret RenderLogin
  end.

(** *** Main route *)

(** [df.empty]. *)
Definition empty (df : DataFrame) : bool :=
  match df with [] => true | _ :: _ => false end.

(** [df.iloc[-1]['4. close']]. *)
Definition iloc_last_close (df : DataFrame) : outcome float :=
  match last df with
  | Some row => Returned (close row)
  | None => Raised (Exn "IndexError" "single positional indexer is out-of-bounds")
  end.

(** [((stock_price - old_price) / old_price) * 100]; [get_latest_price]
    gives [None] on an empty frame, and [None - x] raises. *)
Definition percent_change (stock_price : option float) (old_price : float)
  : outcome float :=
  match stock_price with
  | Some p => Returned (((p - old_price) / old_price) * 100)%float
  | None =>
      Raised (Exn "TypeError"
                  "unsupported operand type(s) for -: 'NoneType' and 'float'")
  end.

Definition stock_data_of (symbol : string) (stock_price : option float)
    (article_details : list string) : pyval :=
  PyDict [ ("symbol", PyStr symbol);
           ("price", match stock_price with Some p => PyFloat p | None => PyNone end);
           ("news", PyList (map PyStr article_details)) ].

Definition make_crew (symbol : string) (stock_price : option float)
    (article_details : list string) : Crew :=
  let stock_data := stock_data_of symbol stock_price article_details in
  let '(classifier, recommender, researcher) := create_agents in
  let classify_stock :=
    {| description := "Classify the stock based on the data: " +:+ py_str stock_data;
       agent := classifier;
       expected_output := "Bullish, Bearish, or Neutral" |} in
  let recommend_stock :=
    {| description := "Provide a recommendation for the stock: " +:+ py_str stock_data;
       agent := recommender;
       expected_output := "Buy, Sell, or Hold with explanation" |} in
  let research_news :=
    {| description := "Research and analyze these news articles: "
                      +:+ py_str (PyList (map PyStr article_details));
       agent := researcher;
       expected_output := "Insights from the news articles" |} in
  {| agents := [classifier; recommender; researcher];
     tasks := [classify_stock; recommend_stock; research_news];
     process := sequential |}.

Definition make_figure (symbol : string) (df : DataFrame) : Figure :=
  {| trace_x := map timestamp df;
     trace_y := map close df;
     trace_mode := "lines";
     trace_name := "Closing Price";
     line_color := "red";
     title := symbol +:+ " Intraday Stock Data (5-min Interval)";
     xaxis_title := "Time";
     yaxis_title := "Price (USD)";
     template := "seaborn";
     xaxis_rangeslider_visible := true |}.

Definition home (req : request) : M W response :=
  stock_symbols <- get_stock_symbols ;;
  match method req with
  | POST =>
      symbol <- form_field req "stock_symbol" ;;
      df <- get_intraday_data symbol ;;
      news_links <- get_stock_news symbol ;;
      article_details <- get_article_details news_links ;;
      if empty df then
        ret (RenderIndex
               {| output_text := "No data available for symbol " +:+ symbol;
                  graph_html := None;
                  stock_symbols := stock_symbols;
                  stock_price := None;
                  price_change_text := None;
                  price_change_class := None |})
      else
        let stock_price := get_latest_price df in
        old_price <- lift (iloc_last_close df) ;;
        price_change <- lift (percent_change stock_price old_price) ;;
        let price_change_text := format_plus_2f price_change +:+ "%" in
        let price_change_class :=
          if (0 <=? price_change)%float then "positive" else "negative" in
        let crew := make_crew symbol stock_price article_details in
        output_text <-
          try_except
            (call (Kickoff crew) (crew_kickoff crew))
            (fun e => ret ("Error during execution: " +:+ exn_str e)) ;;
        let fig := make_figure symbol df in
        record (ToHtml fig) ;;;
        let graph_html := fig_to_html fig in
        ret (RenderIndex
               {| output_text := output_text;
                  graph_html := Some graph_html;
                  stock_symbols := stock_symbols;
                  stock_price := stock_price;
                  price_change_text := Some price_change_text;
                  price_change_class := Some price_change_class |})
  | _ =>
      ret (RenderIndex
             {| output_text := "";
                graph_html := None;
                stock_symbols := stock_symbols;
                stock_price := None;
                price_change_text := None;
                price_change_class := None |})
  end.

(** *** Vocabulary of the statements *)

(** The request is a POST for [symbol], and the market-data client, called
    once the catalog has been loaded, returned the frame [df] and left the
    state [s2]. *)
Definition fetched (req : request) (s : state W) (symbol : string)
    (df : DataFrame) (s2 : state W) : Prop :=
  method req = POST ∧
  form req !! "stock_symbol" = Some symbol ∧
  get_intraday_data symbol (snd (get_stock_symbols s)) = (Returned df, s2).

(** News discovery, started in [s2], returned [links] and left [s3]. *)
Definition discovered (symbol : string) (s2 : state W) (links : list pyval)
    (s3 : state W) : Prop :=
  get_stock_news symbol s2 = (Returned links, s3).

(** Reading the catalog fails: [pd.read_csv] raises, or the table it returns
    has no column named symbol. *)
Definition catalog_unreadable (s : state W) : Prop :=
  match fst (pd_read_csv CSV_FILE_PATH (world s)) with
  | Raised _ => True
  | Returned df => df !! "symbol" = None
  end.

(** The entry that [get_article_details] appends for a link whose extracted
    text is [content]. *)
Definition article_entry (link : pyval) (content : string) : string :=
  "Article from " +:+ py_str link +:+ ": " +:+ sentiment_label (polarity content).

(** The calls of the loop of [get_article_details]: a fetch and a polarity
    per link, in the order of the links. *)
Fixpoint article_calls (links : list pyval) (contents : list string) : list event :=
  match links, contents with
  | link :: links', content :: contents' =>
      HttpGet link :: Polarity content :: article_calls links' contents'
  | _, _ => []
  end.

(** The calls made between two states. *)
Definition calls_between (s s' : state W) (made : list event) : Prop :=
  calls s' = calls s ++ made.

End App.

Definition is_dict (v : pyval) : bool :=
  match v with PyDict _ => true | _ => false end.

(** What the spec expects of an article of the provider's document: its link,
    or the empty string when it has none. *)
Definition link_or_blank (article : pyval) : pyval :=
  match article with
  | PyDict entries =>
      match dict_lookup "link" entries with Some l => l | None => PyStr "" end
  | _ => PyStr ""
  end.

(** What the spec expects of two decimal places: for a float of magnitude
    [m * 2^e], [n] is the integer nearest to [m * 2^e * 100], the even one
    of the two when it lies halfway. *)
Definition rounds_to_cents (m : positive) (e : Z) (n : Z) : Prop :=
  if 0 <=? e then n = Z.pos m * 2 ^ e * 100
  else
    2 * Z.abs (n * 2 ^ (- e) - Z.pos m * 100) <= 2 ^ (- e) ∧
    (2 * Z.abs (n * 2 ^ (- e) - Z.pos m * 100) = 2 ^ (- e) -> Z.even n = true).

(** A computation that uses nothing of the state of the request but the
    world: its outcome, the world it leaves and the calls it makes are fixed
    by the world it starts in; the session and the flashed messages are left
    as they are, and the calls are appended to those made before. *)
Definition tidy {W A : Type} (m : M W A) : Prop :=
  ∀ w, ∃ r w' made,
    ∀ sess fl c, m (State w sess fl c) = (r, State w' sess fl (c ++ made)).

Definition is_catalog_read (ev : event) : bool :=
  match ev with ReadCsv _ => true | _ => false end.
Definition is_stdout (ev : event) : bool :=
  match ev with Stdout _ => true | _ => false end.
Definition is_market_data (ev : event) : bool :=
  match ev with GetIntraday _ => true | _ => false end.

(** Every field of the page that only a frame with rows fills is filled. *)
Definition priced (ctx : index_context) : Prop :=
  is_Some (graph_html ctx) ∧ is_Some (stock_price ctx) ∧
  is_Some (price_change_text ctx) ∧ is_Some (price_change_class ctx).

(** None of them is. *)
Definition unpriced (ctx : index_context) : Prop :=
  graph_html ctx = None ∧ stock_price ctx = None ∧
  price_change_text ctx = None ∧ price_change_class ctx = None.

(** ** Concrete collaborators

    A world of canned answers: what each service answers is fixed in the
    world.  The libraries are stand-ins: the polarity and the paragraphs are
    small tables, [repr] and [json.dumps] print without escaping and print a
    float with two decimals.  The lemmas that run the program on concrete
    requests use these; none of their statements depends on how a value is
    printed. *)

Module Demo.

Record canned := {
  catalog : outcome csv_table;
  quotes : string -> outcome DataFrame;
  news : outcome pyval;
  pages : pyval -> outcome http_response;
  narrative : outcome string
}.

#[export] Instance demo_config : Config :=
  {| SECRET_KEY := "secret";
     GROQ_API_KEY := "groq-key";
     ALPHA_VANTAGE_API_KEY := "av-key";
     SERPER_API_KEY := "serper-key" |}.

#[export] Instance demo_services : Services canned :=
  {| pd_read_csv := fun _ w => (catalog w, w);
     ts_get_intraday := fun _ symbol _ _ w =>
       (match quotes w symbol with
        | Returned df => Returned (df, PyDict [("2. Symbol", PyStr symbol)])
        | Raised e => Raised e
        end, w);
     serper_news := fun _ _ w => (news w, w);
     requests_get := fun url w => (pages w url, w);
     crew_kickoff := fun _ w => (narrative w, w) |}.

Definition dq : string := String "034"%char EmptyString.

Fixpoint demo_repr (v : pyval) : string :=
  match v with
  | PyNone => "None"
  | PyBool b => if b then "True" else "False"
  | PyInt n => pretty n
  | PyFloat x => format_plus_2f x
  | PyStr s => "'" +:+ s +:+ "'"
  | PyList items => "[" +:+ join ", " (map demo_repr items) +:+ "]"
  | PyDict entries =>
      "{" +:+ join ", " (map (fun '(k, x) => "'" +:+ k +:+ "': " +:+ demo_repr x) entries)
          +:+ "}"
  end.

Fixpoint demo_dumps (v : pyval) : string :=
  match v with
  | PyNone => "null"
  | PyBool b => if b then "true" else "false"
  | PyInt n => pretty n
  | PyFloat x => format_plus_2f x
  | PyStr s => dq +:+ s +:+ dq
  | PyList items => "[" +:+ join ", " (map demo_dumps items) +:+ "]"
  | PyDict entries =>
      "{" +:+ join ", " (map (fun '(k, x) => dq +:+ k +:+ dq +:+ ": " +:+ demo_dumps x) entries)
          +:+ "}"
  end.

Definition demo_polarity (content : string) : float :=
  if String.eqb content "Failed to fetch content" then (-0.5)%float
  else if String.eqb content "Shares rose on great earnings." then 0.75%float
  else 0%float.

Definition demo_paragraphs (html : string) : outcome (list string) :=
  if String.eqb html "<p>Shares rose on great earnings.</p>"
  then Returned ["Shares rose on great earnings."]
  else Returned [].

#[export] Instance demo_library : Library :=
  {| py_repr := demo_repr;
     json_dumps := demo_dumps;
     polarity := demo_polarity;
     soup_paragraphs := demo_paragraphs;
     fig_to_html := fun fig => "<div>" +:+ title fig +:+ "</div>" |}.

Definition quiet_bar (t : string) (c : float) : bar :=
  {| timestamp := t; open_ := c; high := c; low := c; close := c; volume := 1000 |}.

(** Six bars, newest first, closing from 195.0 down to 190.0. *)
Definition aapl : DataFrame :=
  [ quiet_bar "2024-05-01 16:00:00" 195; quiet_bar "2024-05-01 15:55:00" 194;
    quiet_bar "2024-05-01 15:50:00" 193; quiet_bar "2024-05-01 15:45:00" 192;
    quiet_bar "2024-05-01 15:40:00" 191; quiet_bar "2024-05-01 15:35:00" 190 ].

Definition flat : DataFrame :=
  [ quiet_bar "2024-05-01 16:00:00" 50; quiet_bar "2024-05-01 15:55:00" 50 ].

Definition falling : DataFrame :=
  [ quiet_bar "2024-05-01 16:00:00" 99; quiet_bar "2024-05-01 15:55:00" 100 ].

Definition good_url : pyval := PyStr "https://news.example/rally".
Definition gone_url : pyval := PyStr "https://news.example/gone".

Definition calm : canned :=
  {| catalog := Returned {[ "symbol" := [PyStr "AAPL"; PyStr "MSFT"] ]};
     quotes := fun symbol =>
       if String.eqb symbol "AAPL" then Returned aapl
       else if String.eqb symbol "FLAT" then Returned flat
       else if String.eqb symbol "DOWN" then Returned falling
       else if String.eqb symbol "????" then
         Raised (Exn "ValueError" "Invalid API call.")
       else Returned [];
     news := Returned (PyDict [("news",
               PyList [ PyDict [("title", PyStr "Rally"); ("link", good_url)];
                        PyDict [("title", PyStr "Gone"); ("link", gone_url)];
                        PyDict [("title", PyStr "No link")] ])]);
     pages := fun url =>
       match url with
       | PyStr u =>
           if String.eqb u "https://news.example/rally"
           then Returned (HttpResponse 200 "<p>Shares rose on great earnings.</p>")
           else if String.eqb u "https://news.example/gone"
           then Returned (HttpResponse 404 "Not Found")
           else Raised (Exn "MissingSchema" ("Invalid URL '" +:+ u +:+ "': No scheme supplied."))
       | _ => Raised (Exn "MissingSchema" "Invalid URL")
       end;
     narrative := Returned "Hold: sentiment is mixed." |}.

Definition with_catalog (c : outcome csv_table) (w : canned) : canned :=
  {| catalog := c; quotes := quotes w; news := news w; pages := pages w;
     narrative := narrative w |}.

Definition with_news (n : outcome pyval) (w : canned) : canned :=
  {| catalog := catalog w; quotes := quotes w; news := n; pages := pages w;
     narrative := narrative w |}.

Definition with_narrative (n : outcome string) (w : canned) : canned :=
  {| catalog := catalog w; quotes := quotes w; news := news w; pages := pages w;
     narrative := n |}.

(** The state at the start of a request: nothing in the session, nothing
    flashed, no call made. *)
Definition fresh (w : canned) : state canned := State w ∅ [] [].

Definition post (fields : list (string * string)) : request :=
  Request POST (list_to_map fields).

(** The agent runtime is out of quota. *)
Definition llm_down : canned :=
  with_narrative (Raised (Exn "RateLimitError" "rate limit reached")) calm.

(** The catalog file is not there. *)
Definition no_catalog : canned :=
  with_catalog (Raised (Exn "FileNotFoundError" "No such file or directory")) calm.

(** The catalog has a ticker column, not a symbol column. *)
Definition ticker_catalog : canned :=
  with_catalog (Returned {[ "ticker" := [PyStr "AAPL"] ]}) calm.

(** The provider answers with a null news field, and with a news list whose
    only entry is a string, and with an object that has no news at all. *)
Definition null_news : canned :=
  with_news (Returned (PyDict [("news", PyNone)])) calm.

Definition string_article : canned :=
  with_news (Returned (PyDict [("news", PyList [PyStr "Rally"])])) calm.

Definition no_news : canned :=
  with_news (Returned (PyDict [("credits", PyInt 1)])) calm.

(** The states a POST for [symbol] goes through, from a fresh state. *)
Definition after_quotes (symbol : string) (w : canned) : state canned :=
  snd (get_intraday_data symbol (snd (get_stock_symbols (fresh w)))).

Definition after_news (symbol : string) (w : canned) : state canned :=
  snd (get_stock_news symbol (after_quotes symbol w)).

Definition calm_links : list pyval := [good_url; gone_url; PyStr ""].

Definition after_articles (symbol : string) (w : canned) : state canned :=
  snd (get_article_details calm_links (after_news symbol w)).

Definition calm_details : list string :=
  [ "Article from https://news.example/rally: Positive sentiment detected";
    "Article from https://news.example/gone: Negative sentiment detected";
    "Article from : Neutral sentiment detected" ].

Definition with_quotes (q : string -> outcome DataFrame) (w : canned) : canned :=
  {| catalog := catalog w; quotes := q; news := news w; pages := pages w;
     narrative := narrative w |}.

(** A frame of one bar, and a frame whose two bars close at zero. *)
Definition single : DataFrame := [ quiet_bar "2024-05-01 16:00:00" 120 ].

Definition worthless : DataFrame :=
  [ quiet_bar "2024-05-01 16:00:00" 0; quiet_bar "2024-05-01 15:55:00" 0 ].

Definition thin : canned :=
  with_quotes (fun symbol =>
                 if String.eqb symbol "ONE" then Returned single
                 else Returned worthless) calm.

(** The provider answers with an empty string as the news, with a non-empty
    string, with a list instead of an object, and with a link that is a
    number. *)
Definition blank_news : canned :=
  with_news (Returned (PyDict [("news", PyStr "")])) calm.

Definition text_news : canned :=
  with_news (Returned (PyDict [("news", PyStr "none today")])) calm.

Definition list_document : canned :=
  with_news (Returned (PyList [])) calm.

Definition numeric_link : canned :=
  with_news (Returned (PyDict [("news",
     PyList [ PyDict [("link", PyInt 7)]; PyDict [("link", good_url)] ])])) calm.

(** A frame that closes at 5.0 after a close at zero, for every symbol. *)
Definition from_zero : DataFrame :=
  [ quiet_bar "2024-05-01 16:00:00" 5; quiet_bar "2024-05-01 15:55:00" 0 ].

Definition relisted : canned := with_quotes (fun _ => Returned from_zero) calm.

(** A session left by an earlier visit. *)
Definition visited (w : canned) : state canned :=
  State w {[ "theme" := "dark"; "username" := "guest" ]} ["Welcome back."]
    [Stdout "earlier request"].

End Demo.

(** * Properties *)

(** ** Comparisons of binary64 floats with zero *)

Lemma Prim2SF_zero : Prim2SF 0%float = S754_zero false.
Proof. reflexivity. Qed.

Lemma ltb_zero_asym (p : float) :
  (p <? 0)%float = true -> (0 <? p)%float = false.
Proof.
  rewrite !FloatAxioms.ltb_spec, Prim2SF_zero.
  destruct (Prim2SF p) as [[|]|[|]| |[|] m e]; cbn; congruence.
Qed.

Lemma eqb_zero_not_ltb (p : float) :
  (p =? 0)%float = true -> (0 <? p)%float = false ∧ (p <? 0)%float = false.
Proof.
  rewrite FloatAxioms.eqb_spec, !FloatAxioms.ltb_spec, Prim2SF_zero.
  destruct (Prim2SF p) as [[|]|[|]| |[|] m e]; cbn; intuition congruence.
Qed.

Lemma eqb_zero_leb (p : float) :
  (p =? 0)%float = true -> (0 <=? p)%float = true.
Proof.
  rewrite FloatAxioms.eqb_spec, FloatAxioms.leb_spec, Prim2SF_zero.
  destruct (Prim2SF p) as [[|]|[|]| |[|] m e]; cbn; congruence.
Qed.

Lemma sentiment_label_cases (p : float) :
  ((0 <? p)%float = true -> sentiment_label p = "Positive sentiment detected") ∧
  ((p <? 0)%float = true -> sentiment_label p = "Negative sentiment detected") ∧
  ((p =? 0)%float = true -> sentiment_label p = "Neutral sentiment detected").
Proof.
  unfold sentiment_label. repeat split.
  - intros ->. reflexivity.
  - intros Hneg. rewrite (ltb_zero_asym p Hneg), Hneg. reflexivity.
  - intros Hz. destruct (eqb_zero_not_ltb p Hz) as [-> ->]. reflexivity.
Qed.

Section Proofs.
Context `{Config} `{Library} {W : Type} `{Services W}.

(** ** Sentiment scorer *)

(** C3: on every text the scorer returns, having asked for the polarity of
    that text once, and its label follows the strict trichotomy: polarity
    above zero gives the positive label, polarity below zero the negative
    one, polarity equal to zero the neutral one; the label is always one of
    the three, which are pairwise distinct. *)
Theorem analyze_article_content_trichotomy (content : string) (s : state W) :
  ∃ label,
    analyze_article_content content s
      = (Returned label,
         State (world s) (session s) (flashes s) (calls s ++ [Polarity content])) ∧
    ((0 <? polarity content)%float = true -> label = "Positive sentiment detected") ∧
    ((polarity content <? 0)%float = true -> label = "Negative sentiment detected") ∧
    ((polarity content =? 0)%float = true -> label = "Neutral sentiment detected") ∧
    (label = "Positive sentiment detected" ∨
     label = "Negative sentiment detected" ∨
     label = "Neutral sentiment detected") ∧
    "Positive sentiment detected" ≠ "Negative sentiment detected" ∧
    "Positive sentiment detected" ≠ "Neutral sentiment detected" ∧
    "Negative sentiment detected" ≠ "Neutral sentiment detected".
Proof.
  exists (sentiment_label (polarity content)).
  destruct (sentiment_label_cases (polarity content)) as (Hpos & Hneg & Hzero).
  repeat split; try assumption; try discriminate.
  unfold sentiment_label.
  destruct (0 <? polarity content)%float; [now left|].
  destruct (polarity content <? 0)%float; [right; now left|right; now right].
Qed.

(** ** What each helper does to the state *)

Lemma get_stock_symbols_run (s : state W) :
  get_stock_symbols s =
    let '(r, w) := pd_read_csv CSV_FILE_PATH (world s) in
    let read := ReadCsv CSV_FILE_PATH in
    match r with
    | Returned df =>
        match df !! "symbol" with
        | Some column =>
            (Returned column, State w (session s) (flashes s) (calls s ++ [read]))
        | None =>
            (Returned [],
             State w (session s) (flashes s)
               (calls s ++ [read; Stdout "Error reading CSV: 'symbol'"]))
        end
    | Raised e =>
        (Returned [],
         State w (session s) (flashes s)
           (calls s ++ [read; Stdout ("Error reading CSV: " +:+ exn_str e)]))
    end.
Proof.
  unfold get_stock_symbols, try_except, bind, call, record, ret, raise.
  destruct (pd_read_csv CSV_FILE_PATH (world s)) as [[df|e] w]; cbn.
  - destruct (df !! "symbol"); cbn; [reflexivity|].
    now rewrite <- app_assoc.
  - now rewrite <- app_assoc.
Qed.

Lemma get_stock_symbols_returns (s : state W) :
  ∃ symbols w made,
    get_stock_symbols s
      = (Returned symbols, State w (session s) (flashes s) (calls s ++ made)) ∧
    existsb is_agent_run made = false ∧ existsb is_chart_render made = false.
Proof.
  rewrite get_stock_symbols_run.
  destruct (pd_read_csv CSV_FILE_PATH (world s)) as [[df|e] w]; cbn.
  - destruct (df !! "symbol"); eauto 10.
  - eauto 10.
Qed.

Lemma get_intraday_data_run (symbol : string) (s : state W) :
  get_intraday_data symbol s =
    let '(r, w) := ts_get_intraday API_KEY symbol "5min" "compact" (world s) in
    (match r with Returned (data, _) => Returned data | Raised e => Raised e end,
     State w (session s) (flashes s) (calls s ++ [GetIntraday symbol])).
Proof.
  unfold get_intraday_data, bind, call, ret.
  destruct (ts_get_intraday _ _ _ _ _) as [[[data meta]|e] w]; reflexivity.
Qed.

Lemma get_stock_news_run (symbol : string) (s : state W) :
  get_stock_news symbol s =
    let '(r, w) := serper_news (news_payload symbol) news_headers (world s) in
    (match r with
     | Returned response_data =>
         match py_get response_data "news" (PyList []) with
         | Returned news =>
             match py_iter news with
             | Returned articles => article_links articles
             | Raised e => Raised e
             end
         | Raised e => Raised e
         end
     | Raised e => Raised e
     end,
     State w (session s) (flashes s) (calls s ++ [NewsSearch (news_payload symbol)])).
Proof.
  unfold get_stock_news, bind, call, lift.
  destruct (serper_news _ _ _) as [[doc|e] w]; [|reflexivity].
  destruct (py_get doc "news" (PyList [])) as [news|e]; [|reflexivity].
  destruct (py_iter news); reflexivity.
Qed.

(** The text [fetch_article_content] hands on for an answer of [requests.get]. *)
Lemma fetch_article_content_run (url : pyval) (s : state W) :
  fetch_article_content url s =
    let '(r, w) := requests_get url (world s) in
    (Returned
       match r with
       | Returned res =>
           if status_code res =? 200 then
             match soup_paragraphs (text res) with
             | Returned paragraphs => join " " paragraphs
             | Raised e => exn_str e
             end
           else "Failed to fetch content"
       | Raised e => exn_str e
       end,
     State w (session s) (flashes s) (calls s ++ [HttpGet url])).
Proof.
  unfold fetch_article_content, try_except, bind, call, lift, ret.
  destruct (requests_get url (world s)) as [[res|e] w]; [|reflexivity].
  destruct (status_code res =? 200); [|reflexivity].
  destruct (soup_paragraphs (text res)); reflexivity.
Qed.

Lemma analyze_article_content_run (content : string) (s : state W) :
  analyze_article_content content s =
    (Returned (sentiment_label (polarity content)),
     State (world s) (session s) (flashes s) (calls s ++ [Polarity content])).
Proof. reflexivity. Qed.

Lemma article_details_from_run (links : list pyval) :
  ∀ (results : list string) (s : state W),
  ∃ contents w,
    length contents = length links ∧
    article_details_from links results s
      = (Returned (results ++ zip_with article_entry links contents),
         State w (session s) (flashes s) (calls s ++ article_calls links contents)).
Proof.
  induction links as [|link rest IH]; intros results s.
  - exists [], (world s). split; [reflexivity|].
    cbn. unfold ret. rewrite !app_nil_r. now destruct s.
  - cbn [article_details_from]. unfold bind at 1.
    rewrite fetch_article_content_run.
    destruct (requests_get link (world s)) as [r w1].
    match goal with
    | |- context [analyze_article_content ?c] => set (content := c)
    end.
    unfold bind at 1. rewrite analyze_article_content_run. cbn [world session flashes calls].
    match goal with
    | |- context [article_details_from rest ?acc ?st] =>
        destruct (IH acc st) as (contents & w & Hlen & Hrun)
    end.
    exists (content :: contents), w. split; [cbn; now rewrite Hlen|].
    rewrite Hrun. cbn [world session flashes calls zip_with article_calls].
    unfold article_entry at 2.
    now rewrite <- !app_assoc.
Qed.

Lemma article_calls_no_agent_run (links : list pyval) :
  ∀ contents, existsb is_agent_run (article_calls links contents) = false.
Proof. induction links; intros [|c cs]; cbn; auto. Qed.

Lemma article_calls_no_chart_render (links : list pyval) :
  ∀ contents, existsb is_chart_render (article_calls links contents) = false.
Proof. induction links; intros [|c cs]; cbn; auto. Qed.

Lemma article_calls_fetches (links : list pyval) :
  ∀ contents, length contents = length links ->
    List.filter is_article_fetch (article_calls links contents) = map HttpGet links.
Proof.
  induction links as [|l ls IH]; intros [|c cs] Hlen; cbn in *; try discriminate; auto.
  f_equal. apply IH. congruence.
Qed.

Lemma article_calls_scorings (links : list pyval) :
  ∀ contents, length contents = length links ->
    List.filter is_sentiment_scoring (article_calls links contents)
      = map Polarity contents.
Proof.
  induction links as [|l ls IH]; intros [|c cs] Hlen; cbn in *; try discriminate; auto.
  f_equal. apply IH. congruence.
Qed.

(** ** The main route, step by step *)

(** Enters [home] on a POST: the catalog has been loaded ([Hsym]), the form
    carries the symbol ([Hfield]) and the outcome of the market-data client
    is known ([Hquote]). *)
Ltac enter_post Hsym Hpost Hfield Hquote :=
  unfold home, bind at 1; rewrite Hsym, Hpost;
  unfold bind at 1, form_field; rewrite Hfield; unfold ret at 1;
  unfold bind at 1; rewrite Hquote.

(** A POST whose frame and links have been obtained: the loop over the links
    returns, and on an empty frame the route renders the no-data page in the
    state the loop left. *)
Lemma home_post_empty_run (req : request) (s : state W) (symbol : string)
    (s2 : state W) (links : list pyval) (s3 : state W) :
  fetched req s symbol [] s2 ->
  discovered symbol s2 links s3 ->
  ∃ symbols contents w4,
    fst (get_stock_symbols s) = Returned symbols ∧
    length contents = length links ∧
    home req s =
      (Returned (RenderIndex
         {| output_text := "No data available for symbol " +:+ symbol;
            graph_html := None;
            stock_symbols := symbols;
            stock_price := None;
            price_change_text := None;
            price_change_class := None |}),
       State w4 (session s3) (flashes s3) (calls s3 ++ article_calls links contents)).
Proof.
  intros (Hpost & Hfield & Hquote) Hnews. red in Hnews.
  destruct (get_stock_symbols_returns s) as (symbols & w1 & made1 & Hsym & _).
  rewrite Hsym in Hquote. cbn [snd] in Hquote.
  destruct (article_details_from_run links [] s3) as (contents & w4 & Hlen & Hloop).
  exists symbols, contents, w4.
  split; [now rewrite Hsym|]. split; [exact Hlen|].
  enter_post Hsym Hpost Hfield Hquote.
  unfold bind at 1. rewrite Hnews.
  unfold bind at 1, get_article_details. rewrite Hloop.
  reflexivity.
Qed.

(** The same on a frame that has rows: the change is computed from the first
    and the last row, the agents run inside the [try], the chart is rendered,
    and the page carries all of it. *)
Lemma home_post_rows_run (req : request) (s : state W) (symbol : string)
    (df : DataFrame) (latest oldest : bar)
    (s2 : state W) (links : list pyval) (s3 : state W) :
  fetched req s symbol df s2 ->
  discovered symbol s2 links s3 ->
  head df = Some latest ->
  last df = Some oldest ->
  ∃ symbols contents w4,
    fst (get_stock_symbols s) = Returned symbols ∧
    length contents = length links ∧
    let details := zip_with article_entry links contents in
    let made := article_calls links contents in
    let crew := make_crew symbol (Some (close latest)) details in
    let fig := make_figure symbol df in
    let price_change :=
      (((close latest - close oldest) / close oldest) * 100)%float in
    get_article_details links s3
      = (Returned details, State w4 (session s3) (flashes s3) (calls s3 ++ made)) ∧
    home req s =
      let '(r, w5) := crew_kickoff crew w4 in
      (Returned (RenderIndex
         {| output_text :=
              match r with
              | Returned narrative => narrative
              | Raised e => "Error during execution: " +:+ exn_str e
              end;
            graph_html := Some (fig_to_html fig);
            stock_symbols := symbols;
            stock_price := Some (close latest);
            price_change_text := Some (format_plus_2f price_change +:+ "%");
            price_change_class :=
              Some (if (0 <=? price_change)%float then "positive" else "negative") |}),
       State w5 (session s3) (flashes s3)
         (calls s3 ++ made ++ [Kickoff crew; ToHtml fig])).
Proof.
  intros (Hpost & Hfield & Hquote) Hnews Hhead Hlast. red in Hnews.
  destruct (get_stock_symbols_returns s) as (symbols & w1 & made1 & Hsym & _).
  rewrite Hsym in Hquote. cbn [snd] in Hquote.
  destruct (article_details_from_run links [] s3) as (contents & w4 & Hlen & Hloop).
  exists symbols, contents, w4.
  split; [now rewrite Hsym|]. split; [exact Hlen|].
  cbn zeta. split; [exact Hloop|].
  enter_post Hsym Hpost Hfield Hquote.
  unfold bind at 1. rewrite Hnews.
  unfold bind at 1, get_article_details. rewrite Hloop.
  destruct df as [|first rest]; [discriminate|].
  cbn in Hhead. injection Hhead as ->.
  cbn [empty get_latest_price].
  unfold bind at 1, lift at 1, iloc_last_close. rewrite Hlast.
  unfold bind at 1, lift at 1, percent_change.
  unfold bind at 1, try_except, call. cbn [world session flashes calls].
  destruct (crew_kickoff _ w4) as [[narrative|e] w5];
    cbn; unfold bind, record, ret; cbn; now rewrite <- !app_assoc.
Qed.

(** An exception of news discovery leaves the route as it is. *)
Lemma home_post_news_raised (req : request) (s : state W) (symbol : string)
    (df : DataFrame) (s2 : state W) (e : exn) (s3 : state W) :
  fetched req s symbol df s2 ->
  get_stock_news symbol s2 = (Raised e, s3) ->
  home req s = (Raised e, s3).
Proof.
  intros (Hpost & Hfield & Hquote) Hnews.
  destruct (get_stock_symbols_returns s) as (symbols & w1 & made1 & Hsym & _).
  rewrite Hsym in Hquote. cbn [snd] in Hquote.
  enter_post Hsym Hpost Hfield Hquote.
  unfold bind at 1. now rewrite Hnews.
Qed.

(** So does an exception of the market-data client. *)
Lemma home_post_quotes_raised (req : request) (s : state W) (symbol : string)
    (e : exn) (s2 : state W) :
  method req = POST ->
  form req !! "stock_symbol" = Some symbol ->
  get_intraday_data symbol (snd (get_stock_symbols s)) = (Raised e, s2) ->
  home req s = (Raised e, s2).
Proof.
  intros Hpost Hfield Hquote.
  destruct (get_stock_symbols_returns s) as (symbols & w1 & made1 & Hsym & _).
  rewrite Hsym in Hquote. cbn [snd] in Hquote.
  now enter_post Hsym Hpost Hfield Hquote.
Qed.

(** The calls made up to the frame: the catalog, then the quotes. *)
Lemma fetched_calls (req : request) (s : state W) (symbol : string)
    (df : DataFrame) (s2 : state W) :
  fetched req s symbol df s2 ->
  ∃ made, calls s2 = calls s ++ made ++ [GetIntraday symbol] ∧
          existsb is_agent_run made = false ∧ existsb is_chart_render made = false.
Proof.
  intros (_ & _ & Hquote).
  destruct (get_stock_symbols_returns s) as (symbols & w1 & made1 & Hsym & Hag & Hch).
  rewrite Hsym in Hquote. cbn [snd] in Hquote.
  rewrite get_intraday_data_run in Hquote. cbn [world session flashes calls] in Hquote.
  destruct (ts_get_intraday _ _ _ _ _) as [r w2].
  injection Hquote as _ <-. cbn. exists made1. now rewrite <- app_assoc.
Qed.

(** ** Percentage change *)

Lemma append_assoc (s1 s2 s3 : string) :
  (s1 +:+ s2) +:+ s3 = s1 +:+ (s2 +:+ s3).
Proof.
  induction s1 as [|c s1 IH]; [reflexivity|].
  change (String c ((s1 +:+ s2) +:+ s3) = String c (s1 +:+ (s2 +:+ s3))).
  now rewrite IH.
Qed.

Lemma round_cents_nonneg (m : positive) (e : Z) : 0 <= round_cents m e.
Proof.
  unfold round_cents. destruct (0 <=? e) eqn:He.
  - apply Z.leb_le in He.
    assert (0 <= 2 ^ e) by (apply Z.pow_nonneg; lia). nia.
  - apply Z.leb_gt in He.
    assert (Hden : 0 < 2 ^ (- e)) by (apply Z.pow_pos_nonneg; lia).
    assert (Hq : 0 <= Z.pos m * 100 / 2 ^ (- e)) by (apply Z.div_pos; lia).
    cbn zeta. destruct (_ ?= _); [destruct (Z.even _)| |]; lia.
Qed.

(** [round_cents] gives the nearest integer, ties to even. *)
Lemma round_cents_nearest (m : positive) (e : Z) :
  rounds_to_cents m e (round_cents m e).
Proof.
  unfold rounds_to_cents, round_cents. destruct (0 <=? e) eqn:He; [reflexivity|].
  apply Z.leb_gt in He.
  assert (Hden : 0 < 2 ^ (- e)) by (apply Z.pow_pos_nonneg; lia).
  set (den := 2 ^ (- e)) in *. set (num := Z.pos m * 100).
  pose proof (Z.div_mod num den ltac:(lia)) as Hdm.
  pose proof (Z.mod_pos_bound num den Hden) as Hr.
  cbv zeta. set (q := num / den) in *. set (r := num mod den) in *.
  clearbody q r num den.
  assert (Hlow : q * den - num = - r) by lia.
  assert (Hhigh : (q + 1) * den - num = den - r) by lia.
  destruct (Z.compare_spec (2 * r) den) as [Hcmp|Hcmp|Hcmp].
  - destruct (Z.even q) eqn:Hq.
    + rewrite Hlow, Z.abs_opp, Z.abs_eq by lia. split; [lia|auto].
    + rewrite Hhigh, Z.abs_eq by lia. split; [lia|].
      intros _. replace (q + 1) with (Z.succ q) by lia.
      now rewrite Z.even_succ, <- Z.negb_even, Hq.
  - rewrite Hlow, Z.abs_opp, Z.abs_eq by lia. split; [lia|intros; exfalso; lia].
  - rewrite Hhigh, Z.abs_eq by lia. split; [lia|intros; exfalso; lia].
Qed.

Lemma digit_pretty (d : Z) : 0 <= d <= 9 -> String (digit d) "" = pretty d.
Proof.
  intros Hd.
  assert (Hcases : d = 0 ∨ d = 1 ∨ d = 2 ∨ d = 3 ∨ d = 4 ∨ d = 5 ∨ d = 6 ∨ d = 7
                   ∨ d = 8 ∨ d = 9) by lia.
  repeat (destruct Hcases as [->|Hcases]; [reflexivity|]). now subst.
Qed.

Lemma two_digits_pretty (c : Z) :
  0 <= c < 100 -> two_digits c = pretty (c / 10) +:+ pretty (c mod 10).
Proof.
  intros Hc. unfold two_digits.
  assert (Htens : 0 <= c / 10 <= 9)
    by (split; [apply Z.div_pos; lia | apply Z.lt_succ_r, Z.div_lt_upper_bound; lia]).
  assert (Hunits : 0 <= c mod 10 <= 9)
    by (pose proof (Z.mod_pos_bound c 10 ltac:(lia)); lia).
  rewrite <- (digit_pretty _ Htens), <- (digit_pretty _ Hunits). reflexivity.
Qed.

(** What [format(x, '+.2f')] followed by a percent sign prints for each class
    of floats: for a finite value that is not zero, the sign, then the
    nearest number of hundredths written as its whole part, a point, and
    its tens and its units. *)
Lemma format_plus_2f_percent (x : float) :
  match Prim2SF x with
  | S754_finite sg m e =>
      ∃ n, 0 <= n ∧ rounds_to_cents m e n ∧
        format_plus_2f x +:+ "%"
          = (if sg then "-" else "+") +:+ pretty (n / 100) +:+ "."
            +:+ pretty (n mod 100 / 10) +:+ pretty (n mod 100 mod 10) +:+ "%"
  | S754_zero sg => format_plus_2f x +:+ "%" = if sg then "-0.00%" else "+0.00%"
  | S754_infinity sg => format_plus_2f x +:+ "%" = if sg then "-inf%" else "+inf%"
  | S754_nan => format_plus_2f x +:+ "%" = "+nan%"
  end.
Proof.
  unfold format_plus_2f.
  destruct (Prim2SF x) as [sg|sg| |sg m e]; try (destruct sg; reflexivity); [reflexivity|].
  exists (round_cents m e).
  split; [apply round_cents_nonneg|]. split; [apply round_cents_nearest|].
  unfold fixed2.
  rewrite two_digits_pretty by (apply Z.mod_pos_bound; lia).
  now rewrite !append_assoc.
Qed.

(** C1, as amended: on a POST whose frame has rows and whose news
    discovery returned, the page carries the close of the first row as the
    price and, as the change, the float [(latest - oldest) / oldest * 100]
    of the closes of the first and of the last row, printed as follows.  A
    finite value that is not zero, of sign [sg] and magnitude [m * 2^e],
    prints as its sign, plus or minus, then the integer nearest to
    [m * 2^e * 100] (the even one when halfway) written in decimal with a
    point before its last two digits, then a percent sign.  A zero prints
    as +0.00% or -0.00%, an infinity as +inf% or -inf% and a value that is
    not a number as +nan%, the last two without decimals.  When the first
    row closes at 195.0 and the last at 190.0 the text is +2.63% and the
    class is positive. *)
Theorem home_percentage_change (req : request) (s : state W) (symbol : string)
    (df : DataFrame) (latest oldest : bar)
    (s2 : state W) (links : list pyval) (s3 : state W) :
  fetched req s symbol df s2 ->
  discovered symbol s2 links s3 ->
  head df = Some latest ->
  last df = Some oldest ->
  let price_change := (((close latest - close oldest) / close oldest) * 100)%float in
  ∃ ctx s',
    home req s = (Returned (RenderIndex ctx), s') ∧
    get_latest_price df = Some (close latest) ∧
    stock_price ctx = Some (close latest) ∧
    match Prim2SF price_change with
    | S754_finite sg m e =>
        ∃ n, 0 <= n ∧ rounds_to_cents m e n ∧
          price_change_text ctx
            = Some ((if sg then "-" else "+") +:+ pretty (n / 100) +:+ "."
                    +:+ pretty (n mod 100 / 10) +:+ pretty (n mod 100 mod 10) +:+ "%")
    | S754_zero sg => price_change_text ctx = Some (if sg then "-0.00%" else "+0.00%")
    | S754_infinity sg => price_change_text ctx = Some (if sg then "-inf%" else "+inf%")
    | S754_nan => price_change_text ctx = Some "+nan%"
    end ∧
    (close latest = 195%float -> close oldest = 190%float ->
     price_change_text ctx = Some "+2.63%" ∧
     price_change_class ctx = Some "positive").
Proof.
  intros Hfetched Hnews Hhead Hlast price_change.
  destruct (home_post_rows_run _ _ _ _ _ _ _ _ _ Hfetched Hnews Hhead Hlast)
    as (symbols & contents & w4 & _ & _ & _ & Hhome).
  cbv zeta in Hhome. fold price_change in Hhome.
  destruct (crew_kickoff _ w4) as [r w5].
  eexists _, _. split; [exact Hhome|].
  cbn [stock_price price_change_text price_change_class].
  split; [destruct df; [discriminate|cbn in *; congruence]|].
  split; [reflexivity|]. split.
  - clearbody price_change.
    pose proof (format_plus_2f_percent price_change) as Hprint.
    destruct (Prim2SF price_change) as [sg|sg| |sg m e].
    + now rewrite Hprint.
    + now rewrite Hprint.
    + now rewrite Hprint.
    + destruct Hprint as (n & Hn & Hnearest & Hprint).
      exists n. split; [exact Hn|]. split; [exact Hnearest|]. now rewrite Hprint.
  - intros H195 H190. subst price_change. rewrite H195, H190.
    split; vm_compute; reflexivity.
Qed.

(** C9: on a POST whose frame has rows (and whose news discovery returned),
    the class on the page is positive exactly when the computed change is
    greater than or equal to zero and negative exactly when it is not; a
    change equal to zero is classed positive. *)
Theorem home_price_change_class (req : request) (s : state W) (symbol : string)
    (df : DataFrame) (latest oldest : bar)
    (s2 : state W) (links : list pyval) (s3 : state W) :
  fetched req s symbol df s2 ->
  discovered symbol s2 links s3 ->
  head df = Some latest ->
  last df = Some oldest ->
  let price_change := (((close latest - close oldest) / close oldest) * 100)%float in
  ∃ ctx s',
    home req s = (Returned (RenderIndex ctx), s') ∧
    (price_change_class ctx = Some "positive" ↔ (0 <=? price_change)%float = true) ∧
    (price_change_class ctx = Some "negative" ↔ (0 <=? price_change)%float = false) ∧
    ((price_change =? 0)%float = true -> price_change_class ctx = Some "positive").
Proof.
  intros Hfetched Hnews Hhead Hlast price_change.
  destruct (home_post_rows_run _ _ _ _ _ _ _ _ _ Hfetched Hnews Hhead Hlast)
    as (symbols & contents & w4 & _ & _ & _ & Hhome).
  cbn zeta in Hhome. fold price_change in Hhome.
  destruct (crew_kickoff _ w4) as [r w5].
  clearbody price_change.
  eexists _, _. split; [exact Hhome|]. cbn.
  split; [|split].
  - destruct (0 <=? price_change)%float; split; intros; congruence.
  - destruct (0 <=? price_change)%float; split; intros; congruence.
  - intros Hz. now rewrite (eqb_zero_leb _ Hz).
Qed.

(** ** The agent run *)

(** C5: on a POST whose frame has rows, when [crew.kickoff] raises an
    exception the route still returns the page; the text on it is exactly
    "Error during execution: " followed by [str] of the exception, nothing
    of a partial run, and the price, the change and the chart are rendered
    as usual. *)
Theorem home_kickoff_exception (req : request) (s : state W) (symbol : string)
    (df : DataFrame) (s2 : state W) (links : list pyval) (s3 : state W)
    (article_details : list string) (s4 : state W) (e : exn) (w5 : W) :
  fetched req s symbol df s2 ->
  empty df = false ->
  discovered symbol s2 links s3 ->
  get_article_details links s3 = (Returned article_details, s4) ->
  crew_kickoff (make_crew symbol (get_latest_price df) article_details) (world s4)
    = (Raised e, w5) ->
  ∃ ctx s',
    home req s = (Returned (RenderIndex ctx), s') ∧
    output_text ctx = "Error during execution: " +:+ exn_str e ∧
    graph_html ctx = Some (fig_to_html (make_figure symbol df)) ∧
    stock_price ctx = get_latest_price df ∧
    is_Some (price_change_text ctx) ∧
    world s' = w5.
Proof.
  intros Hfetched Hrows Hnews Hdetails Hkick.
  destruct df as [|latest rest]; [discriminate|].
  destruct (last (latest :: rest)) as [oldest|] eqn:Hlast;
    [|apply last_None in Hlast; discriminate].
  destruct (home_post_rows_run _ _ _ _ latest oldest _ _ _ Hfetched Hnews eq_refl Hlast)
    as (symbols & contents & w4 & _ & _ & Hloop & Hhome).
  cbn zeta in Hloop, Hhome.
  rewrite Hloop in Hdetails. injection Hdetails as <- <-.
  cbn [world get_latest_price] in Hkick. rewrite Hkick in Hhome.
  eexists _, _. split; [exact Hhome|]. cbn. eauto 10.
Qed.

(** ** Empty series *)

(** C2, as amended: on a POST whose fetched frame is empty, whatever the
    route does next it starts no agent run and renders no chart; when news
    discovery, which runs before the frame is tested, returns, the route
    returns the page that reports that no data is available for the
    submitted symbol, with no chart markup, no price and no change; and
    when news discovery raises, the route raises the same exception and
    reports nothing. *)
Theorem home_empty_series (req : request) (s : state W) (symbol : string)
    (s2 : state W) :
  fetched req s symbol [] s2 ->
  ∃ r s' made,
    home req s = (r, s') ∧
    calls_between s s' made ∧
    existsb is_agent_run made = false ∧
    existsb is_chart_render made = false ∧
    (∀ links s3, discovered symbol s2 links s3 ->
       ∃ ctx, r = Returned (RenderIndex ctx) ∧
              output_text ctx = "No data available for symbol " +:+ symbol ∧
              graph_html ctx = None ∧
              stock_price ctx = None ∧
              price_change_text ctx = None ∧
              price_change_class ctx = None) ∧
    (∀ e s3, get_stock_news symbol s2 = (Raised e, s3) -> r = Raised e ∧ s' = s3).
Proof.
  intros Hfetched.
  destruct (fetched_calls _ _ _ _ _ Hfetched) as (made1 & Hcalls2 & Hag1 & Hch1).
  pose proof (get_stock_news_run symbol s2) as Hrun.
  destruct (get_stock_news symbol s2) as [[links|e] s3] eqn:Hnews.
  - destruct (home_post_empty_run _ _ _ _ _ _ Hfetched Hnews)
      as (symbols & contents & w4 & _ & _ & Hhome).
    eexists _, _, (made1 ++ [GetIntraday symbol]
                     ++ NewsSearch (news_payload symbol) :: article_calls links contents).
    split; [exact Hhome|].
    destruct (serper_news _ _ _) as [r3 w3]. injection Hrun as _ ->.
    unfold calls_between. cbn [calls]. rewrite Hcalls2.
    split; [now rewrite <- !app_assoc|].
    rewrite !existsb_app, Hag1, Hch1. cbn.
    rewrite article_calls_no_agent_run, article_calls_no_chart_render.
    split; [reflexivity|]. split; [reflexivity|]. split.
    + intros links' s3' Hnews'. eexists. split; [reflexivity|]. cbn. auto.
    + intros e s3' Hraised. congruence.
  - rewrite (home_post_news_raised _ _ _ _ _ _ _ Hfetched Hnews).
    eexists _, _, (made1 ++ [GetIntraday symbol; NewsSearch (news_payload symbol)]).
    split; [reflexivity|].
    destruct (serper_news _ _ _) as [r3 w3]. injection Hrun as _ ->.
    unfold calls_between. cbn [calls]. rewrite Hcalls2.
    split; [now rewrite <- !app_assoc|].
    rewrite !existsb_app, Hag1, Hch1. cbn.
    split; [reflexivity|]. split; [reflexivity|]. split.
    + intros links' s3' Hnews'. red in Hnews'. congruence.
    + intros e' s3' Hraised. injection Hraised as -> ->. split; reflexivity.
Qed.

(** ** Failures of the market-data client *)

(** C6, as amended: an exception of the market-data client is not turned
    into an empty frame, it leaves [get_intraday_data], in whatever state it
    is called, and then the route;
    and on an empty frame whose news discovery returned, the route has
    searched the news and fetched and scored every link before it reports
    that no data is available, after which it starts no agent run and
    renders no chart. *)
Theorem home_market_failure_and_empty_series (req : request) (s : state W)
    (symbol : string) :
  method req = POST ->
  form req !! "stock_symbol" = Some symbol ->
  (∀ s1 e w,
     ts_get_intraday API_KEY symbol "5min" "compact" (world s1) = (Raised e, w) ->
     ∃ s2, get_intraday_data symbol s1 = (Raised e, s2) ∧
           (s1 = snd (get_stock_symbols s) -> home req s = (Raised e, s2))) ∧
  (∀ s2 links s3,
     get_intraday_data symbol (snd (get_stock_symbols s)) = (Returned [], s2) ->
     discovered symbol s2 links s3 ->
     ∃ ctx s' made,
       home req s = (Returned (RenderIndex ctx), s') ∧
       output_text ctx = "No data available for symbol " +:+ symbol ∧
       calls s' = calls s2 ++ NewsSearch (news_payload symbol) :: made ∧
       List.filter is_article_fetch made = map HttpGet links ∧
       length (List.filter is_sentiment_scoring made) = length links ∧
       existsb is_agent_run made = false ∧
       existsb is_chart_render made = false).
Proof.
  intros Hpost Hfield. split.
  - intros s1 e w Hts. eexists. split.
    + rewrite get_intraday_data_run, Hts. reflexivity.
    + intros ->. apply (home_post_quotes_raised _ _ symbol); [assumption..|].
      rewrite get_intraday_data_run, Hts. reflexivity.
  - intros s2 links s3 Hquote Hnews.
    assert (Hfetched : fetched req s symbol [] s2) by (repeat split; assumption).
    destruct (home_post_empty_run _ _ _ _ _ _ Hfetched Hnews)
      as (symbols & contents & w4 & _ & Hlen & Hhome).
    eexists _, _, (article_calls links contents).
    split; [exact Hhome|]. cbn [output_text calls].
    split; [reflexivity|].
    red in Hnews. rewrite get_stock_news_run in Hnews.
    destruct (serper_news _ _ _) as [r3 w3]. injection Hnews as _ <-.
    cbn [calls]. split; [now rewrite <- app_assoc|].
    split; [now apply article_calls_fetches|].
    split; [now rewrite article_calls_scorings, length_map by assumption|].
    split; [apply article_calls_no_agent_run | apply article_calls_no_chart_render].
Qed.

(** ** News discovery *)

Lemma article_links_dicts (articles : list pyval) :
  forallb is_dict articles = true ->
  article_links articles = Returned (map link_or_blank articles).
Proof.
  induction articles as [|article rest IH]; [reflexivity|].
  cbn [forallb]. intros [Hd Hrest]%andb_prop.
  destruct article; try discriminate.
  cbn. rewrite (IH Hrest). reflexivity.
Qed.

(** C7, as amended: when the exchange with the provider returns a document,
    a missing field is treated as absent, that is, an object without the news
    field gives the empty list, and an object whose news field is a list of
    objects gives their links in order, with the empty string for each
    article that has no link; an exception of the exchange, and the
    exception of iterating over a news field that is not iterable, leave
    [get_stock_news] as they are. *)
Theorem get_stock_news_missing_fields (symbol : string) (s : state W)
    (answer : outcome pyval) (w : W) :
  serper_news (news_payload symbol) news_headers (world s) = (answer, w) ->
  let s' := State w (session s) (flashes s)
              (calls s ++ [NewsSearch (news_payload symbol)]) in
  (∀ entries,
     answer = Returned (PyDict entries) -> dict_lookup "news" entries = None ->
     get_stock_news symbol s = (Returned [], s')) ∧
  (∀ entries articles,
     answer = Returned (PyDict entries) ->
     dict_lookup "news" entries = Some (PyList articles) ->
     forallb is_dict articles = true ->
     get_stock_news symbol s = (Returned (map link_or_blank articles), s')) ∧
  (∀ e, answer = Raised e -> get_stock_news symbol s = (Raised e, s')) ∧
  (∀ entries news e,
     answer = Returned (PyDict entries) ->
     dict_lookup "news" entries = Some news ->
     py_iter news = Raised e ->
     get_stock_news symbol s = (Raised e, s')).
Proof.
  intros Hserper s'. rewrite get_stock_news_run, Hserper. subst s'.
  repeat split.
  - intros entries -> Hnone. cbn. now rewrite Hnone.
  - intros entries articles -> Hsome Hdicts. cbn. rewrite Hsome. cbn.
    now rewrite article_links_dicts.
  - now intros e ->.
  - intros entries news e -> Hsome Hiter. cbn. rewrite Hsome. now rewrite Hiter.
Qed.

(** ** Article extractor *)

(** C4: when [requests.get] answers with a status other than 200, the
    extractor returns the marker "Failed to fetch content" and raises
    nothing; in the loop of [get_article_details] the marker is then handed
    to the scorer like any text, and the entry of the link carries the label
    the scorer gives to the marker. *)
Theorem fetch_failure_marker_is_scored (link : pyval) (rest : list pyval)
    (results : list string) (s : state W) (res : http_response) (w : W) :
  requests_get link (world s) = (Returned res, w) ->
  status_code res ≠ 200 ->
  let marker := "Failed to fetch content" in
  let label := sentiment_label (polarity marker) in
  let entry := "Article from " +:+ py_str link +:+ ": " +:+ label in
  fetch_article_content link s
    = (Returned marker, State w (session s) (flashes s) (calls s ++ [HttpGet link])) ∧
  article_details_from (link :: rest) results s
    = article_details_from rest (results ++ [entry])
        (State w (session s) (flashes s) (calls s ++ [HttpGet link; Polarity marker])) ∧
  ∃ others s' made,
    article_details_from (link :: rest) results s
      = (Returned (results ++ entry :: others), s') ∧
    calls s' = calls s ++ HttpGet link :: Polarity marker :: made ∧
    (results = [] ->
     get_article_details (link :: rest) s = (Returned (entry :: others), s')).
Proof.
  intros Hget Hstatus marker label entry.
  assert (Hfetch : fetch_article_content link s
    = (Returned marker, State w (session s) (flashes s) (calls s ++ [HttpGet link]))).
  { rewrite fetch_article_content_run, Hget.
    destruct (status_code res =? 200) eqn:Heq; [apply Z.eqb_eq in Heq; contradiction|].
    reflexivity. }
  assert (Hstep : article_details_from (link :: rest) results s
    = article_details_from rest (results ++ [entry])
        (State w (session s) (flashes s) (calls s ++ [HttpGet link; Polarity marker]))).
  { cbn [article_details_from]. unfold bind at 1. rewrite Hfetch.
    unfold bind at 1. rewrite analyze_article_content_run.
    cbn [world session flashes calls]. now rewrite <- app_assoc. }
  split; [exact Hfetch|]. split; [exact Hstep|].
  match type of Hstep with
  | _ = article_details_from rest ?acc ?st =>
      destruct (article_details_from_run rest acc st) as (contents & w' & _ & Hrun)
  end.
  rewrite Hrun in Hstep. cbn [world session flashes calls] in Hstep.
  eexists (zip_with article_entry rest contents), _, (article_calls rest contents).
  rewrite <- !app_assoc in Hstep. cbn [app] in Hstep.
  split; [exact Hstep|]. split; [reflexivity|].
  intros ->. exact Hstep.
Qed.

(** ** Login *)

Lemma credentials_match (user pwd : string) :
  USER_CREDENTIALS !! user = Some pwd ↔ user = "admin" ∧ pwd = "password123".
Proof.
  unfold USER_CREDENTIALS. rewrite lookup_singleton_Some. intuition congruence.
Qed.

(** C8: on a POST that submits a username and a password, the hardcoded
    pair, and only it, stores the username in the session and redirects to
    the home route, flashing nothing; every other pair flashes the
    invalid-credentials message and renders the login form again, and the
    session is left as it was. *)
Theorem login_credentials (req : request) (s : state W) (user pwd : string) :
  method req = POST ->
  form req !! "username" = Some user ->
  form req !! "password" = Some pwd ->
  (user = "admin" ∧ pwd = "password123" ->
   login req s
     = (Returned (Redirect "/home"),
        State (world s) (<["username" := user]> (session s)) (flashes s) (calls s))) ∧
  (¬ (user = "admin" ∧ pwd = "password123") ->
   login req s
     = (Returned RenderLogin,
        State (world s) (session s) (flashes s ++ ["Invalid credentials."]) (calls s))) ∧
  (fst (login req s) = Returned (Redirect "/home")
     ↔ user = "admin" ∧ pwd = "password123").
Proof.
  intros Hpost Huser Hpwd.
  assert (Hrun : login req s =
    if bool_decide (USER_CREDENTIALS !! user = Some pwd) then
      (Returned (Redirect "/home"),
       State (world s) (<["username" := user]> (session s)) (flashes s) (calls s))
    else
      (Returned RenderLogin,
       State (world s) (session s) (flashes s ++ ["Invalid credentials."]) (calls s))).
  { unfold login. rewrite Hpost. unfold bind, form_field.
    rewrite Huser, Hpwd. unfold ret at 1 2.
    destruct (bool_decide _); reflexivity. }
  rewrite Hrun. pose proof (credentials_match user pwd) as Hmatch.
  destruct (bool_decide_reflect (USER_CREDENTIALS !! user = Some pwd)) as [Hyes|Hno].
  - split; [reflexivity|]. split; [tauto|]. cbn. tauto.
  - split; [tauto|]. split; [reflexivity|]. cbn. split; [discriminate|tauto].
Qed.

(** ** Symbol catalog *)

(** Whatever the route returns, it is the index page, and its symbol picker
    is the list the loader gave. *)
Lemma home_renders_loaded_symbols (req : request) (s : state W) (r : response)
    (s' : state W) :
  home req s = (Returned r, s') ->
  ∃ ctx, r = RenderIndex ctx ∧ fst (get_stock_symbols s) = Returned (stock_symbols ctx).
Proof.
  destruct (get_stock_symbols_returns s) as (symbols & w1 & made1 & Hsym & _).
  unfold home, bind at 1. rewrite Hsym. cbn [fst].
  destruct (method req).
  1,2: unfold ret; intros [= <- _]; eauto.
  unfold bind at 1, form_field.
  destruct (form req !! "stock_symbol") as [symbol|]; [|discriminate].
  unfold ret at 1. unfold bind at 1.
  destruct (get_intraday_data symbol _) as [[df|e] s2]; [|discriminate].
  unfold bind at 1.
  destruct (get_stock_news symbol s2) as [[links|e] s3]; [|discriminate].
  unfold bind at 1, get_article_details.
  destruct (article_details_from_run links [] s3) as (contents & w4 & _ & ->).
  destruct df as [|latest rest]; cbn [empty].
  - unfold ret. intros [= <- _]. eauto.
  - unfold bind at 1, lift at 1.
    destruct (iloc_last_close (latest :: rest)); [|discriminate].
    unfold bind at 1, lift at 1. cbn [get_latest_price percent_change].
    unfold bind at 1, try_except, call. cbn [world session flashes calls].
    destruct (crew_kickoff _ w4) as [[narrative|e] w5];
      unfold bind, record, ret; cbn; intros [= <- _]; eauto.
Qed.

(** C10: the loader of the symbol catalog returns on every state, it never
    raises; when reading the catalog fails ([pd.read_csv] raises, or the
    table has no symbol column) it returns the empty list, a request to the
    home route that is not a POST is answered with the index page and an
    empty symbol picker, and every page the home route renders has an empty
    picker. *)
Theorem get_stock_symbols_never_raises (s : state W) :
  (∃ symbols s', get_stock_symbols s = (Returned symbols, s')) ∧
  (catalog_unreadable s ->
     (∃ s', get_stock_symbols s = (Returned [], s')) ∧
     (∀ req, method req ≠ POST ->
        ∃ ctx s', home req s = (Returned (RenderIndex ctx), s') ∧
                  stock_symbols ctx = []) ∧
     (∀ req r s', home req s = (Returned r, s') ->
        ∃ ctx, r = RenderIndex ctx ∧ stock_symbols ctx = [])).
Proof.
  split.
  - destruct (get_stock_symbols_returns s) as (symbols & w1 & made1 & Hsym & _). eauto.
  - intros Hbad.
    assert (Hempty : ∃ s', get_stock_symbols s = (Returned [], s')).
    { rewrite get_stock_symbols_run. red in Hbad.
      destruct (pd_read_csv CSV_FILE_PATH (world s)) as [[df|e] w]; cbn in *; eauto.
      rewrite Hbad. eauto. }
    destruct Hempty as (s1 & Hsym).
    split; [eauto|]. split.
    + intros req Hmethod. unfold home, bind. rewrite Hsym.
      destruct (method req); [| |contradiction]; eexists _, _; split; reflexivity.
    + intros req r s' Hhome.
      destruct (home_renders_loaded_symbols _ _ _ _ Hhome) as (ctx & -> & Hctx).
      rewrite Hsym in Hctx. injection Hctx as Hctx.
      exists ctx. split; [reflexivity|now symmetry].
Qed.

End Proofs.

(** * Runs on concrete requests *)

Import Demo.

(** The three labels on three texts of the canned library. *)
Lemma analyze_article_content_labels :
  fst (analyze_article_content "Shares rose on great earnings." (fresh calm))
    = Returned "Positive sentiment detected" ∧
  fst (analyze_article_content "Failed to fetch content" (fresh calm))
    = Returned "Negative sentiment detected" ∧
  fst (analyze_article_content "" (fresh calm))
    = Returned "Neutral sentiment detected".
Proof.
  destruct (analyze_article_content_trichotomy
              "Shares rose on great earnings." (fresh calm))
    as (l1 & -> & H1 & _).
  destruct (analyze_article_content_trichotomy "Failed to fetch content" (fresh calm))
    as (l2 & -> & _ & H2 & _).
  destruct (analyze_article_content_trichotomy "" (fresh calm))
    as (l3 & -> & _ & _ & H3 & _).
  cbn [fst]. rewrite H1, H2, H3 by (vm_compute; reflexivity). auto.
Defined.

(** Six bars closing from 195.0 down to 190.0: the change is +2.63%. *)
Lemma home_percentage_change_aapl :
  fetched (post [("stock_symbol", "AAPL")]) (fresh calm) "AAPL" aapl
    (after_quotes "AAPL" calm) ∧
  discovered "AAPL" (after_quotes "AAPL" calm) calm_links (after_news "AAPL" calm) ∧
  ∃ ctx s',
    home (post [("stock_symbol", "AAPL")]) (fresh calm)
      = (Returned (RenderIndex ctx), s') ∧
    stock_price ctx = Some 195%float ∧
    price_change_text ctx = Some "+2.63%" ∧
    price_change_class ctx = Some "positive".
Proof.
  assert (Hf : fetched (post [("stock_symbol", "AAPL")]) (fresh calm) "AAPL" aapl
                 (after_quotes "AAPL" calm))
    by (repeat split; vm_compute; reflexivity).
  assert (Hn : discovered "AAPL" (after_quotes "AAPL" calm) calm_links
                 (after_news "AAPL" calm))
    by (vm_compute; reflexivity).
  split; [exact Hf|]. split; [exact Hn|].
  destruct (home_percentage_change _ _ _ _
              (quiet_bar "2024-05-01 16:00:00" 195) (quiet_bar "2024-05-01 15:35:00" 190)
              _ _ _ Hf Hn eq_refl eq_refl)
    as (ctx & s' & Hhome & _ & Hprice & _ & Hex).
  exists ctx, s'. split; [exact Hhome|]. split; [exact Hprice|].
  apply Hex; reflexivity.
Defined.

(** Against C1 as the spec states it, two POSTs whose frame has rows.  In
    the first the oldest close is zero: the change is an infinity and the
    text is +inf%, with no decimals.  In the second the news field of the
    provider's answer is null: the route raises and computes no change. *)
Lemma percentage_change_not_always_two_decimals :
  fst (get_intraday_data "RLST" (snd (get_stock_symbols (fresh relisted))))
    = Returned from_zero ∧
  home (post [("stock_symbol", "RLST")]) (fresh relisted)
    = (Returned (RenderIndex
         {| output_text := "Hold: sentiment is mixed.";
            graph_html := Some "<div>RLST Intraday Stock Data (5-min Interval)</div>";
            stock_symbols := [PyStr "AAPL"; PyStr "MSFT"];
            stock_price := Some 5%float;
            price_change_text := Some "+inf%";
            price_change_class := Some "positive" |}),
       snd (home (post [("stock_symbol", "RLST")]) (fresh relisted))) ∧
  fst (get_intraday_data "AAPL" (snd (get_stock_symbols (fresh null_news))))
    = Returned aapl ∧
  fst (home (post [("stock_symbol", "AAPL")]) (fresh null_news))
    = Raised (Exn "TypeError" "'NoneType' object is not iterable").
Proof. repeat split; vm_compute; reflexivity. Qed.

(** Two bars closing at 50.0: the change is zero and its class positive. *)
Lemma home_price_change_class_flat :
  fetched (post [("stock_symbol", "FLAT")]) (fresh calm) "FLAT" flat
    (after_quotes "FLAT" calm) ∧
  discovered "FLAT" (after_quotes "FLAT" calm) calm_links (after_news "FLAT" calm) ∧
  ∃ ctx s',
    home (post [("stock_symbol", "FLAT")]) (fresh calm)
      = (Returned (RenderIndex ctx), s') ∧
    price_change_class ctx = Some "positive".
Proof.
  assert (Hf : fetched (post [("stock_symbol", "FLAT")]) (fresh calm) "FLAT" flat
                 (after_quotes "FLAT" calm))
    by (repeat split; vm_compute; reflexivity).
  assert (Hn : discovered "FLAT" (after_quotes "FLAT" calm) calm_links
                 (after_news "FLAT" calm))
    by (vm_compute; reflexivity).
  split; [exact Hf|]. split; [exact Hn|].
  destruct (home_price_change_class _ _ _ _
              (quiet_bar "2024-05-01 16:00:00" 50) (quiet_bar "2024-05-01 15:55:00" 50)
              _ _ _ Hf Hn eq_refl eq_refl)
    as (ctx & s' & Hhome & _ & _ & Hzero).
  exists ctx, s'. split; [exact Hhome|].
  apply Hzero. vm_compute. reflexivity.
Defined.

(** The agent runtime raises: the page still comes, with the error text and
    the chart. *)
Lemma home_kickoff_exception_llm_down :
  fetched (post [("stock_symbol", "AAPL")]) (fresh llm_down) "AAPL" aapl
    (after_quotes "AAPL" llm_down) ∧
  empty aapl = false ∧
  discovered "AAPL" (after_quotes "AAPL" llm_down) calm_links
    (after_news "AAPL" llm_down) ∧
  get_article_details calm_links (after_news "AAPL" llm_down)
    = (Returned calm_details, after_articles "AAPL" llm_down) ∧
  crew_kickoff (make_crew "AAPL" (get_latest_price aapl) calm_details)
      (world (after_articles "AAPL" llm_down))
    = (Raised (Exn "RateLimitError" "rate limit reached"), llm_down) ∧
  ∃ ctx s',
    home (post [("stock_symbol", "AAPL")]) (fresh llm_down)
      = (Returned (RenderIndex ctx), s') ∧
    output_text ctx = "Error during execution: rate limit reached" ∧
    graph_html ctx = Some "<div>AAPL Intraday Stock Data (5-min Interval)</div>".
Proof.
  assert (Hf : fetched (post [("stock_symbol", "AAPL")]) (fresh llm_down) "AAPL" aapl
                 (after_quotes "AAPL" llm_down))
    by (repeat split; vm_compute; reflexivity).
  assert (Hn : discovered "AAPL" (after_quotes "AAPL" llm_down) calm_links
                 (after_news "AAPL" llm_down))
    by (vm_compute; reflexivity).
  assert (Hd : get_article_details calm_links (after_news "AAPL" llm_down)
                 = (Returned calm_details, after_articles "AAPL" llm_down))
    by (vm_compute; reflexivity).
  assert (Hk : crew_kickoff (make_crew "AAPL" (get_latest_price aapl) calm_details)
                   (world (after_articles "AAPL" llm_down))
                 = (Raised (Exn "RateLimitError" "rate limit reached"), llm_down))
    by (vm_compute; reflexivity).
  repeat (split; [assumption || reflexivity|]).
  destruct (home_kickoff_exception _ _ _ _ _ _ _ _ _ _ _ Hf eq_refl Hn Hd Hk)
    as (ctx & s' & Hhome & Hout & Hgraph & _).
  exists ctx, s'. split; [exact Hhome|]. split; [exact Hout|exact Hgraph].
Defined.

(** A symbol without quotes: the no-data page, no agent run, no chart. *)
Lemma home_empty_series_unknown_symbol :
  fetched (post [("stock_symbol", "NONE")]) (fresh calm) "NONE" []
    (after_quotes "NONE" calm) ∧
  ∃ r s' made,
    home (post [("stock_symbol", "NONE")]) (fresh calm) = (r, s') ∧
    calls_between (fresh calm) s' made ∧
    existsb is_agent_run made = false ∧
    existsb is_chart_render made = false ∧
    ∃ ctx, r = Returned (RenderIndex ctx) ∧
           output_text ctx = "No data available for symbol NONE" ∧
           graph_html ctx = None.
Proof.
  assert (Hf : fetched (post [("stock_symbol", "NONE")]) (fresh calm) "NONE" []
                 (after_quotes "NONE" calm))
    by (repeat split; vm_compute; reflexivity).
  assert (Hn : discovered "NONE" (after_quotes "NONE" calm) calm_links
                 (after_news "NONE" calm))
    by (vm_compute; reflexivity).
  split; [exact Hf|].
  destruct (home_empty_series _ _ _ _ Hf)
    as (r & s' & made & Hhome & Hbetween & Hagent & Hchart & Hpage & _).
  destruct (Hpage _ _ Hn) as (ctx & Hr & Hout & Hgraph & _).
  exists r, s', made. repeat (split; [assumption|]).
  exists ctx. repeat split; assumption.
Defined.

(** Against C2 as the spec states it: the frame of the POST is empty and the
    news field of the provider's answer is null; the route raises the
    [TypeError] of news discovery and reports nothing. *)
Lemma empty_series_without_report :
  fst (get_intraday_data "NONE" (snd (get_stock_symbols (fresh null_news))))
    = Returned [] ∧
  fst (get_stock_news "NONE" (after_quotes "NONE" null_news))
    = Raised (Exn "TypeError" "'NoneType' object is not iterable") ∧
  fst (home (post [("stock_symbol", "NONE")]) (fresh null_news))
    = Raised (Exn "TypeError" "'NoneType' object is not iterable").
Proof. repeat split; vm_compute; reflexivity. Qed.

(** A page answered with 404: the marker is scored, here as negative. *)
Lemma fetch_failure_marker_is_scored_gone :
  requests_get gone_url (world (fresh calm))
    = (Returned (HttpResponse 404 "Not Found"), calm) ∧
  status_code (HttpResponse 404 "Not Found") ≠ 200 ∧
  fetch_article_content gone_url (fresh calm)
    = (Returned "Failed to fetch content", State calm ∅ [] [HttpGet gone_url]) ∧
  ∃ others s' made,
    get_article_details [gone_url; good_url] (fresh calm)
      = (Returned ("Article from https://news.example/gone: Negative sentiment detected"
                     :: others), s') ∧
    calls s' = HttpGet gone_url :: Polarity "Failed to fetch content" :: made.
Proof.
  assert (Hget : requests_get gone_url (world (fresh calm))
                   = (Returned (HttpResponse 404 "Not Found"), calm))
    by reflexivity.
  assert (Hstatus : status_code (HttpResponse 404 "Not Found") ≠ 200)
    by (cbn; lia).
  split; [exact Hget|]. split; [exact Hstatus|].
  destruct (fetch_failure_marker_is_scored gone_url [good_url] [] (fresh calm) _ _
              Hget Hstatus)
    as (Hfetch & _ & others & s' & made & _ & Hcalls & Hdetails).
  split; [exact Hfetch|].
  exists others, s', made. split; [exact (Hdetails eq_refl)|exact Hcalls].
Defined.

(** Against C6 as the spec states it, two requests.  For the first the
    market-data client raises, and so do [get_intraday_data] and the route:
    no empty frame comes out of the failure.  For the second the frame is
    empty, and the route has searched the news, fetched three pages and
    scored three texts. *)
Lemma market_failure_not_an_empty_series :
  fst (ts_get_intraday API_KEY "????" "5min" "compact" calm)
    = Raised (Exn "ValueError" "Invalid API call.") ∧
  fst (get_intraday_data "????" (fresh calm))
    = Raised (Exn "ValueError" "Invalid API call.") ∧
  fst (home (post [("stock_symbol", "????")]) (fresh calm))
    = Raised (Exn "ValueError" "Invalid API call.") ∧
  fst (get_intraday_data "NONE" (snd (get_stock_symbols (fresh calm)))) = Returned [] ∧
  List.filter (λ ev, is_news_discovery ev || is_article_fetch ev || is_sentiment_scoring ev)
      (calls (snd (home (post [("stock_symbol", "NONE")]) (fresh calm))))
    = [ NewsSearch (news_payload "NONE");
        HttpGet good_url; Polarity "Shares rose on great earnings.";
        HttpGet gone_url; Polarity "Failed to fetch content";
        HttpGet (PyStr ""); Polarity "Invalid URL '': No scheme supplied." ].
Proof. repeat split; vm_compute; reflexivity. Qed.

(** The same two requests through the amended statement. *)
Lemma home_market_failure_and_empty_series_runs :
  method (post [("stock_symbol", "????")]) = POST ∧
  form (post [("stock_symbol", "????")]) !! "stock_symbol" = Some "????" ∧
  home (post [("stock_symbol", "????")]) (fresh calm)
    = (Raised (Exn "ValueError" "Invalid API call."), after_quotes "????" calm) ∧
  method (post [("stock_symbol", "NONE")]) = POST ∧
  form (post [("stock_symbol", "NONE")]) !! "stock_symbol" = Some "NONE" ∧
  ∃ ctx s' made,
    home (post [("stock_symbol", "NONE")]) (fresh calm)
      = (Returned (RenderIndex ctx), s') ∧
    output_text ctx = "No data available for symbol NONE" ∧
    calls s' = calls (after_quotes "NONE" calm) ++ NewsSearch (news_payload "NONE") :: made ∧
    List.filter is_article_fetch made = map HttpGet calm_links ∧
    length (List.filter is_sentiment_scoring made) = length calm_links ∧
    existsb is_agent_run made = false ∧
    existsb is_chart_render made = false.
Proof.
  assert (Hm1 : method (post [("stock_symbol", "????")]) = POST) by reflexivity.
  assert (Hf1 : form (post [("stock_symbol", "????")]) !! "stock_symbol" = Some "????")
    by (vm_compute; reflexivity).
  assert (Hm2 : method (post [("stock_symbol", "NONE")]) = POST) by reflexivity.
  assert (Hf2 : form (post [("stock_symbol", "NONE")]) !! "stock_symbol" = Some "NONE")
    by (vm_compute; reflexivity).
  split; [exact Hm1|]. split; [exact Hf1|]. split.
  - destruct (home_market_failure_and_empty_series _ (fresh calm) _ Hm1 Hf1)
      as (Hraise & _).
    assert (Hts : ts_get_intraday API_KEY "????" "5min" "compact"
                    (world (snd (get_stock_symbols (fresh calm))))
                  = (Raised (Exn "ValueError" "Invalid API call."), calm))
      by (vm_compute; reflexivity).
    destruct (Hraise _ _ _ Hts) as (s2 & Hquote & Hhome).
    rewrite (Hhome eq_refl). f_equal. unfold after_quotes. now rewrite Hquote.
  - split; [exact Hm2|]. split; [exact Hf2|].
    destruct (home_market_failure_and_empty_series _ (fresh calm) _ Hm2 Hf2)
      as (_ & Hempty).
    apply (Hempty (after_quotes "NONE" calm) calm_links (after_news "NONE" calm));
      vm_compute; reflexivity.
Defined.

(** Against C7 as the spec states it, two answers of the provider: one whose
    news field is null, one whose news list holds a string.  Iterating over
    [None] raises a [TypeError], [str] has no [get], and both exceptions
    leave [get_stock_news] and then the home route. *)
Lemma malformed_news_raises :
  fst (get_stock_news "AAPL" (fresh null_news))
    = Raised (Exn "TypeError" "'NoneType' object is not iterable") ∧
  fst (home (post [("stock_symbol", "AAPL")]) (fresh null_news))
    = Raised (Exn "TypeError" "'NoneType' object is not iterable") ∧
  fst (get_stock_news "AAPL" (fresh string_article))
    = Raised (Exn "AttributeError" "'str' object has no attribute 'get'") ∧
  fst (home (post [("stock_symbol", "AAPL")]) (fresh string_article))
    = Raised (Exn "AttributeError" "'str' object has no attribute 'get'").
Proof. repeat split; vm_compute; reflexivity. Qed.

(** An answer with three articles, the last without a link, and an answer
    without the news field. *)
Lemma get_stock_news_missing_fields_runs :
  serper_news (news_payload "AAPL") news_headers (world (fresh calm))
    = (news calm, calm) ∧
  serper_news (news_payload "AAPL") news_headers (world (fresh no_news))
    = (news no_news, no_news) ∧
  fst (get_stock_news "AAPL" (fresh calm)) = Returned [good_url; gone_url; PyStr ""] ∧
  fst (get_stock_news "AAPL" (fresh no_news)) = Returned [].
Proof.
  assert (H1 : serper_news (news_payload "AAPL") news_headers (world (fresh calm))
                 = (news calm, calm)) by reflexivity.
  assert (H2 : serper_news (news_payload "AAPL") news_headers (world (fresh no_news))
                 = (news no_news, no_news)) by reflexivity.
  split; [exact H1|]. split; [exact H2|]. split.
  - destruct (get_stock_news_missing_fields "AAPL" (fresh calm) _ _ H1)
      as (_ & Hlist & _).
    now rewrite (Hlist _ _ eq_refl eq_refl eq_refl).
  - destruct (get_stock_news_missing_fields "AAPL" (fresh no_news) _ _ H2)
      as (Hnone & _).
    now rewrite (Hnone _ eq_refl eq_refl).
Defined.

(** The hardcoded pair, and the right user with a wrong password. *)
Lemma login_credentials_runs :
  method (post [("username", "admin"); ("password", "password123")]) = POST ∧
  form (post [("username", "admin"); ("password", "password123")]) !! "username"
    = Some "admin" ∧
  form (post [("username", "admin"); ("password", "password123")]) !! "password"
    = Some "password123" ∧
  login (post [("username", "admin"); ("password", "password123")]) (fresh calm)
    = (Returned (Redirect "/home"), State calm {[ "username" := "admin" ]} [] []) ∧
  form (post [("username", "admin"); ("password", "letmein")]) !! "password"
    = Some "letmein" ∧
  login (post [("username", "admin"); ("password", "letmein")]) (fresh calm)
    = (Returned RenderLogin, State calm ∅ ["Invalid credentials."] []).
Proof.
  assert (Hu : form (post [("username", "admin"); ("password", "password123")])
                 !! "username" = Some "admin") by (vm_compute; reflexivity).
  assert (Hp : form (post [("username", "admin"); ("password", "password123")])
                 !! "password" = Some "password123") by (vm_compute; reflexivity).
  assert (Hu' : form (post [("username", "admin"); ("password", "letmein")])
                  !! "username" = Some "admin") by (vm_compute; reflexivity).
  assert (Hp' : form (post [("username", "admin"); ("password", "letmein")])
                  !! "password" = Some "letmein") by (vm_compute; reflexivity).
  split; [reflexivity|]. split; [exact Hu|]. split; [exact Hp|]. split.
  - destruct (login_credentials
                (post [("username", "admin"); ("password", "password123")])
                (fresh calm) _ _ eq_refl Hu Hp) as (Hyes & _).
    rewrite Hyes by (split; reflexivity). reflexivity.
  - split; [exact Hp'|].
    destruct (login_credentials
                (post [("username", "admin"); ("password", "letmein")])
                (fresh calm) _ _ eq_refl Hu' Hp') as (_ & Hno & _).
    rewrite Hno; [reflexivity|]. intros [_ Hpwd]. discriminate.
Defined.

(** A missing catalog file, and a catalog without the symbol column. *)
Lemma get_stock_symbols_never_raises_runs :
  catalog_unreadable (fresh no_catalog) ∧
  catalog_unreadable (fresh ticker_catalog) ∧
  fst (get_stock_symbols (fresh no_catalog)) = Returned [] ∧
  fst (get_stock_symbols (fresh ticker_catalog)) = Returned [] ∧
  ∃ ctx s', home (Request GET ∅) (fresh no_catalog) = (Returned (RenderIndex ctx), s') ∧
            stock_symbols ctx = [].
Proof.
  assert (H1 : catalog_unreadable (fresh no_catalog)) by exact I.
  assert (H2 : catalog_unreadable (fresh ticker_catalog)) by (vm_compute; reflexivity).
  split; [exact H1|]. split; [exact H2|].
  destruct (get_stock_symbols_never_raises (fresh no_catalog)) as (_ & Hbad1).
  destruct (get_stock_symbols_never_raises (fresh ticker_catalog)) as (_ & Hbad2).
  destruct (Hbad1 H1) as ((s1 & Hsym1) & Hget & _).
  destruct (Hbad2 H2) as ((s2 & Hsym2) & _).
  rewrite Hsym1, Hsym2. split; [reflexivity|]. split; [reflexivity|].
  apply Hget. discriminate.
Defined.

(** * Further properties of the helpers and of the routes *)

Section Further.
Context `{Config} `{Library} {W : Type} `{Services W}.

(** ** Computations that leave the session alone *)

Lemma tidy_ret {A} (a : A) : tidy (ret (W := W) a).
Proof. intros w. exists (Returned a), w, []. intros. unfold ret. now rewrite app_nil_r. Qed.

Lemma tidy_raise {A} (e : exn) : tidy (raise (W := W) (A := A) e).
Proof. intros w. exists (Raised e), w, []. intros. unfold raise. now rewrite app_nil_r. Qed.

Lemma tidy_lift {A} (o : outcome A) : tidy (lift (W := W) o).
Proof. intros w. exists o, w, []. intros. unfold lift. now rewrite app_nil_r. Qed.

Lemma tidy_record (ev : event) : tidy (record (W := W) ev).
Proof. intros w. exists (Returned tt), w, [ev]. reflexivity. Qed.

Lemma tidy_call {A} (ev : event) (f : W -> outcome A * W) : tidy (call ev f).
Proof.
  intros w. destruct (f w) as [r w'] eqn:Hf. exists r, w', [ev].
  intros. unfold call. cbn [world]. now rewrite Hf.
Qed.

Lemma tidy_bind {A B} (m : M W A) (k : A -> M W B) :
  tidy m -> (∀ a, tidy (k a)) -> tidy (bind m k).
Proof.
  intros Hm Hk w. destruct (Hm w) as (r & w1 & made1 & Hrun).
  destruct r as [a|e].
  - destruct (Hk a w1) as (r2 & w2 & made2 & Hrun2).
    exists r2, w2, (made1 ++ made2). intros.
    unfold bind. now rewrite Hrun, Hrun2, app_assoc.
  - exists (Raised e), w1, made1. intros. unfold bind. now rewrite Hrun.
Qed.

Lemma tidy_try_except {A} (m : M W A) (h : exn -> M W A) :
  tidy m -> (∀ e, tidy (h e)) -> tidy (try_except m h).
Proof.
  intros Hm Hh w. destruct (Hm w) as (r & w1 & made1 & Hrun).
  destruct r as [a|e].
  - exists (Returned a), w1, made1. intros. unfold try_except. now rewrite Hrun.
  - destruct (Hh e w1) as (r2 & w2 & made2 & Hrun2).
    exists r2, w2, (made1 ++ made2). intros.
    unfold try_except. now rewrite Hrun, Hrun2, app_assoc.
Qed.

Create HintDb tidy.
#[local] Hint Resolve tidy_ret tidy_raise tidy_lift tidy_record tidy_call : tidy.

(** Splits a computation along its binds and handlers, then along the tests
    it makes on the values it got. *)
Ltac tidy_steps :=
  repeat first
    [ apply tidy_bind; [|intros ?]
    | apply tidy_try_except; [|intros ?]
    | solve [auto with tidy]
    | match goal with
      | |- tidy (match ?x with _ => _ end) => destruct x
      | |- tidy (let '(_, _) := ?x in _) => destruct x
      end ].

Lemma tidy_get_stock_symbols : tidy get_stock_symbols.
Proof. unfold get_stock_symbols. tidy_steps. Qed.

Lemma tidy_get_intraday_data (symbol : string) : tidy (get_intraday_data symbol).
Proof. unfold get_intraday_data. tidy_steps. Qed.

Lemma tidy_get_stock_news (symbol : string) : tidy (get_stock_news symbol).
Proof. unfold get_stock_news. cbv zeta. tidy_steps. Qed.

Lemma tidy_fetch_article_content (url : pyval) : tidy (fetch_article_content url).
Proof. unfold fetch_article_content. tidy_steps. Qed.

Lemma tidy_analyze_article_content (content : string) :
  tidy (analyze_article_content (W := W) content).
Proof. unfold analyze_article_content. tidy_steps. Qed.

Lemma tidy_article_details_from (links : list pyval) :
  ∀ results, tidy (article_details_from links results).
Proof.
  induction links as [|link rest IH]; intros results; cbn [article_details_from].
  - apply tidy_ret.
  - apply tidy_bind; [apply tidy_fetch_article_content|intros content].
    apply tidy_bind; [apply tidy_analyze_article_content|intros sentiment].
    apply IH.
Qed.

Lemma tidy_form_field (req : request) (key : string) :
  tidy (form_field (W := W) req key).
Proof. unfold form_field. tidy_steps. Qed.

Lemma tidy_home (req : request) : tidy (home req).
Proof.
  unfold home.
  apply tidy_bind; [apply tidy_get_stock_symbols|intros stock_symbols].
  destruct (method req); try apply tidy_ret.
  apply tidy_bind; [apply tidy_form_field|intros symbol].
  apply tidy_bind; [apply tidy_get_intraday_data|intros df].
  apply tidy_bind; [apply tidy_get_stock_news|intros news_links].
  apply tidy_bind; [apply tidy_article_details_from|intros article_details].
  destruct (empty df); [apply tidy_ret|].
  tidy_steps.
Qed.

(** ** The loop over the links *)

Lemma sentiment_label_one_of_three (p : float) :
  sentiment_label p = "Positive sentiment detected" ∨
  sentiment_label p = "Negative sentiment detected" ∨
  sentiment_label p = "Neutral sentiment detected".
Proof.
  unfold sentiment_label.
  destruct (0 <? p)%float; [now left|].
  destruct (p <? 0)%float; [right; now left|right; now right].
Qed.

(** X1: [get_article_details] never raises, whatever the pages answer; it
    returns one entry per link, in the order of the links, the entry of a
    link being "Article from ", [str] of the link, ": " and one of the three
    labels; and it makes one fetch and one scoring per link, in that order. *)
Theorem get_article_details_one_entry_per_link (links : list pyval) (s : state W) :
  ∃ contents w,
    length contents = length links ∧
    get_article_details links s
      = (Returned (zip_with article_entry links contents),
         State w (session s) (flashes s) (calls s ++ article_calls links contents)) ∧
    length (zip_with article_entry links contents) = length links ∧
    length (article_calls links contents) = (2 * length links)%nat ∧
    (∀ i link, links !! i = Some link ->
       ∃ label,
         (label = "Positive sentiment detected" ∨
          label = "Negative sentiment detected" ∨
          label = "Neutral sentiment detected") ∧
         zip_with article_entry links contents !! i
           = Some ("Article from " +:+ py_str link +:+ ": " +:+ label)).
Proof.
  destruct (article_details_from_run links [] s) as (contents & w & Hlen & Hrun).
  exists contents, w. split; [exact Hlen|]. split; [exact Hrun|].
  split; [rewrite length_zip_with; lia|]. split.
  - clear Hrun. revert contents Hlen.
    induction links as [|l ls IH]; intros [|c cs] Hlen; cbn in *; try lia.
    rewrite (IH cs) by lia. lia.
  - intros i link Hlink.
    assert (Hlt : (i < length contents)%nat)
      by (rewrite Hlen; eapply lookup_lt_Some; eassumption).
    destruct (lookup_lt_is_Some_2 _ _ Hlt) as (content & Hcontent).
    exists (sentiment_label (polarity content)).
    split; [apply sentiment_label_one_of_three|].
    rewrite lookup_zip_with, Hlink. cbn. now rewrite Hcontent.
Qed.

(** X2: [fetch_article_content] never raises and makes one request.  When
    [requests.get] raises, or when the page comes with status 200 and
    BeautifulSoup raises on it, the text returned is [str] of the exception;
    on status 200 otherwise it is the paragraphs joined by single spaces.
    Whatever text is returned, the loop of [get_article_details] scores it
    and labels the link with the result. *)
Theorem fetch_article_content_never_raises (url : pyval) (rest : list pyval)
    (results : list string) (s : state W) :
  ∃ content w,
    snd (requests_get url (world s)) = w ∧
    fetch_article_content url s
      = (Returned content,
         State w (session s) (flashes s) (calls s ++ [HttpGet url])) ∧
    (∀ e, fst (requests_get url (world s)) = Raised e -> content = exn_str e) ∧
    (∀ res e,
       fst (requests_get url (world s)) = Returned res -> status_code res = 200 ->
       soup_paragraphs (text res) = Raised e -> content = exn_str e) ∧
    (∀ res paragraphs,
       fst (requests_get url (world s)) = Returned res -> status_code res = 200 ->
       soup_paragraphs (text res) = Returned paragraphs ->
       content = join " " paragraphs) ∧
    article_details_from (url :: rest) results s
      = article_details_from rest (results ++ [article_entry url content])
          (State w (session s) (flashes s)
             (calls s ++ [HttpGet url; Polarity content])).
Proof.
  pose proof (fetch_article_content_run url s) as Hrun.
  destruct (requests_get url (world s)) as [answer w] eqn:Hget. cbn [fst snd].
  eexists _, w. split; [reflexivity|]. split; [exact Hrun|].
  repeat split.
  - now intros e ->.
  - intros res e -> Hstatus Hsoup. now rewrite Hstatus, Hsoup.
  - intros res paragraphs -> Hstatus Hsoup. now rewrite Hstatus, Hsoup.
  - cbn [article_details_from]. unfold bind at 1. rewrite Hrun.
    unfold bind at 1. rewrite analyze_article_content_run.
    cbn [world session flashes calls]. now rewrite <- app_assoc.
Qed.

(** ** The symbol catalog, once more *)

(** X3: every call of [get_stock_symbols] reads the catalog file once, at
    static/stock_symbols.csv, and does nothing else but, when the read
    fails, write one line that starts with "Error reading CSV: " to the
    standard output; when the read succeeds nothing is written and the
    list returned is the symbol column as read. *)
Theorem get_stock_symbols_reads_once (s : state W) :
  ∃ symbols w made,
    get_stock_symbols s
      = (Returned symbols,
         State w (session s) (flashes s)
           (calls s ++ ReadCsv "static/stock_symbols.csv" :: made)) ∧
    (catalog_unreadable s ->
       symbols = [] ∧ ∃ why, made = [Stdout ("Error reading CSV: " +:+ why)]) ∧
    (¬ catalog_unreadable s ->
       made = [] ∧
       ∃ df, fst (pd_read_csv CSV_FILE_PATH (world s)) = Returned df ∧
             df !! "symbol" = Some symbols).
Proof.
  rewrite get_stock_symbols_run. unfold catalog_unreadable.
  destruct (pd_read_csv CSV_FILE_PATH (world s)) as [[df|e] w]; cbn.
  - destruct (df !! "symbol") as [column|] eqn:Hcol.
    + eexists _, _, []. split; [reflexivity|]. split; [discriminate|].
      intros _. split; [reflexivity|]. eauto.
    + eexists _, _, [_]. split; [reflexivity|]. split; [eauto|].
      intros Hno. now destruct Hno.
  - eexists _, _, [_]. split; [reflexivity|]. split; [eauto|].
    intros Hno. now destruct Hno.
Qed.

(** ** Login, once more *)

Lemma login_run (req : request) (s : state W) :
  login req s =
    match method req with
    | POST =>
        match form req !! "username" with
        | None => (Raised bad_request_key_error, s)
        | Some user =>
            match form req !! "password" with
            | None => (Raised bad_request_key_error, s)
            | Some pwd =>
                if bool_decide (USER_CREDENTIALS !! user = Some pwd) then
                  (Returned (Redirect "/home"),
                   State (world s) (<["username" := user]> (session s))
                     (flashes s) (calls s))
                else
                  (Returned RenderLogin,
                   State (world s) (session s)
                     (flashes s ++ ["Invalid credentials."]) (calls s))
            end
        end
    | _ => (Returned RenderLogin, s)
    end.
Proof.
  unfold login. destruct (method req); try reflexivity.
  unfold bind, form_field.
  destruct (form req !! "username") as [user|]; [|reflexivity].
  unfold ret at 1.
  destruct (form req !! "password") as [pwd|]; [|reflexivity].
  unfold ret at 1. destruct (bool_decide _); reflexivity.
Qed.

(** X4: whatever the request, [login] calls no collaborator and leaves the
    world as it is.  A request that is not a POST gets the form and changes
    nothing; a request that raises changes nothing.  The session is either
    unchanged or, with the redirect, gains admin as the username: no other
    username is ever stored.  The flashed messages are either unchanged or,
    with the form, gain the invalid-credentials message; the redirect
    flashes nothing. *)
Theorem login_state_effects (req : request) (s : state W) :
  ∃ r s',
    login req s = (r, s') ∧
    world s' = world s ∧ calls s' = calls s ∧
    (method req ≠ POST -> r = Returned RenderLogin ∧ s' = s) ∧
    (raises r = true -> s' = s) ∧
    (session s' = session s ∨
     r = Returned (Redirect "/home") ∧
     session s' = <["username" := "admin"]> (session s)) ∧
    (flashes s' = flashes s ∨
     r = Returned RenderLogin ∧ flashes s' = flashes s ++ ["Invalid credentials."]) ∧
    (r = Returned (Redirect "/home") -> flashes s' = flashes s).
Proof.
  assert (Hcases : ∀ (r : outcome response) (s' : state W),
    world s' = world s -> calls s' = calls s ->
    (method req ≠ POST -> r = Returned RenderLogin ∧ s' = s) ->
    (raises r = true -> s' = s) ->
    (session s' = session s ∨
     r = Returned (Redirect "/home") ∧
     session s' = <["username" := "admin"]> (session s)) ->
    (flashes s' = flashes s ∨
     r = Returned RenderLogin ∧ flashes s' = flashes s ++ ["Invalid credentials."]) ->
    (r = Returned (Redirect "/home") -> flashes s' = flashes s) ->
    login req s = (r, s') ->
    ∃ r s',
      login req s = (r, s') ∧
      world s' = world s ∧ calls s' = calls s ∧
      (method req ≠ POST -> r = Returned RenderLogin ∧ s' = s) ∧
      (raises r = true -> s' = s) ∧
      (session s' = session s ∨
       r = Returned (Redirect "/home") ∧
       session s' = <["username" := "admin"]> (session s)) ∧
      (flashes s' = flashes s ∨
       r = Returned RenderLogin ∧ flashes s' = flashes s ++ ["Invalid credentials."]) ∧
      (r = Returned (Redirect "/home") -> flashes s' = flashes s)) by eauto 12.
  pose proof (login_run req s) as Hrun.
  destruct (method req) eqn:Hmethod.
  1,2: eapply Hcases; [..|exact Hrun]; auto; discriminate.
  destruct (form req !! "username") as [user|].
  2: { eapply Hcases; [..|exact Hrun]; auto; congruence. }
  destruct (form req !! "password") as [pwd|].
  2: { eapply Hcases; [..|exact Hrun]; auto; congruence. }
  destruct (bool_decide_reflect (USER_CREDENTIALS !! user = Some pwd)) as [Hyes|Hno].
  - apply credentials_match in Hyes as [-> ->].
    eapply Hcases; [..|exact Hrun]; cbn; auto; congruence.
  - eapply Hcases; [..|exact Hrun]; cbn; auto; congruence.
Qed.


(** X6: after a login with the hardcoded pair the session reads back admin
    under username, whatever was stored there before, every other key of the
    session reads as before, and logging in again with the same pair leaves
    the state as the first login left it. *)
Theorem login_session_read_back (req : request) (s : state W) :
  method req = POST ->
  form req !! "username" = Some "admin" ->
  form req !! "password" = Some "password123" ->
  ∃ s',
    login req s = (Returned (Redirect "/home"), s') ∧
    session s' !! "username" = Some "admin" ∧
    (∀ k, k ≠ "username" -> session s' !! k = session s !! k) ∧
    login req s' = (Returned (Redirect "/home"), s').
Proof.
  intros Hpost Huser Hpwd.
  assert (Hrun : ∀ st : state W, login req st =
            (Returned (Redirect "/home"),
             State (world st) (<["username" := "admin"]> (session st))
               (flashes st) (calls st))).
  { intros st. rewrite login_run, Hpost, Huser, Hpwd.
    rewrite bool_decide_eq_true_2; [reflexivity|].
    now apply credentials_match. }
  eexists. split; [apply Hrun|]. cbn [session].
  split; [apply lookup_insert_eq|].
  split; [intros k Hk; now apply lookup_insert_ne|].
  rewrite Hrun. cbn [world session flashes calls].
  now rewrite insert_insert_eq.
Qed.

(** ** The main route, once more *)

(** X7: the home route looks at no session.  What it answers, the world it
    leaves and the calls it makes are fixed by the request and by the world
    it starts in: they are the same with any session, any flashed messages
    and any calls made before; the session and the flashed messages come out
    as they went in, and the calls are appended to the earlier ones. *)
Theorem home_ignores_session (req : request) (w : W) :
  ∃ r w' made,
    ∀ sess fl c,
      home req (State w sess fl c) = (r, State w' sess fl (c ++ made)).
Proof. exact (tidy_home req w). Qed.

Lemma get_stock_symbols_calls (s : state W) :
  ∃ symbols w errors,
    get_stock_symbols s
      = (Returned symbols,
         State w (session s) (flashes s) (calls s ++ ReadCsv CSV_FILE_PATH :: errors)) ∧
    forallb is_stdout errors = true.
Proof.
  rewrite get_stock_symbols_run.
  destruct (pd_read_csv CSV_FILE_PATH (world s)) as [[df|e] w]; cbv zeta iota.
  - destruct (df !! "symbol") as [column|]; eexists _, _, _; split; reflexivity.
  - eexists _, _, _; split; reflexivity.
Qed.

(** X8: a request to the home route that is not a POST reads the catalog and
    calls nothing else (no quotes, no news, no page, no agent, no chart); it
    always gets the index page, with the loaded symbols, an empty text and
    no price, change or chart. *)
Theorem home_without_submission (req : request) (s : state W) :
  method req ≠ POST ->
  ∃ symbols w made,
    fst (get_stock_symbols s) = Returned symbols ∧
    home req s
      = (Returned (RenderIndex
           {| output_text := "";
              graph_html := None;
              stock_symbols := symbols;
              stock_price := None;
              price_change_text := None;
              price_change_class := None |}),
         State w (session s) (flashes s) (calls s ++ ReadCsv CSV_FILE_PATH :: made)) ∧
    forallb is_stdout made = true.
Proof.
  intros Hmethod.
  destruct (get_stock_symbols_calls s) as (symbols & w & errors & Hsym & Herr).
  exists symbols, w, errors. rewrite Hsym. split; [reflexivity|].
  split; [|exact Herr].
  unfold home, bind at 1. rewrite Hsym.
  destruct (method req); [reflexivity..|contradiction].
Qed.


(** X10: on a POST whose frame has rows and whose news discovery returned,
    the calls of the route are, in this order: the catalog read (and its
    error line, if any), the quotes, the news search, a fetch and a scoring
    per link, then one agent run and last one chart rendering.  The crew
    that runs is built from the symbol, the close of the first row and the
    entries of the links; the figure is built from the whole frame. *)
Theorem home_call_order (req : request) (s : state W) (symbol : string)
    (df : DataFrame) (latest oldest : bar)
    (s2 : state W) (links : list pyval) (s3 : state W) :
  fetched req s symbol df s2 ->
  discovered symbol s2 links s3 ->
  head df = Some latest ->
  last df = Some oldest ->
  ∃ ctx s' contents errors,
    home req s = (Returned (RenderIndex ctx), s') ∧
    length contents = length links ∧
    forallb is_stdout errors = true ∧
    calls s' =
      calls s ++ ReadCsv CSV_FILE_PATH :: errors
        ++ GetIntraday symbol :: NewsSearch (news_payload symbol)
        :: article_calls links contents
        ++ [ Kickoff (make_crew symbol (Some (close latest))
                        (zip_with article_entry links contents));
             ToHtml (make_figure symbol df) ].
Proof.
  intros Hfetched Hnews Hhead Hlast.
  destruct (home_post_rows_run _ _ _ _ _ _ _ _ _ Hfetched Hnews Hhead Hlast)
    as (symbols & contents & w4 & _ & Hlen & _ & Hhome).
  cbv zeta in Hhome.
  destruct (crew_kickoff _ w4) as [r w5].
  destruct Hfetched as (_ & _ & Hquote). red in Hnews.
  destruct (get_stock_symbols_calls s) as (symbols' & w1 & errors & Hsym & Herr).
  rewrite Hsym in Hquote. cbn [snd] in Hquote.
  rewrite get_intraday_data_run in Hquote. cbn [world session flashes calls] in Hquote.
  destruct (ts_get_intraday _ _ _ _ _) as [r2 w2]. injection Hquote as _ <-.
  rewrite get_stock_news_run in Hnews. cbn [world session flashes calls] in Hnews.
  destruct (serper_news _ _ _) as [r3 w3]. injection Hnews as _ <-.
  cbn [world session flashes calls] in Hhome.
  eexists _, _, contents, errors. split; [exact Hhome|].
  split; [exact Hlen|]. split; [exact Herr|].
  cbn [calls]. rewrite <- !app_assoc. cbn [app]. reflexivity.
Qed.

(** X11: on a POST whose frame has rows, when [crew.kickoff] returns, the
    text on the page is what it returned, unchanged, and the world the route
    leaves is the one the agent run left. *)
Theorem home_kickoff_returns (req : request) (s : state W) (symbol : string)
    (df : DataFrame) (s2 : state W) (links : list pyval) (s3 : state W)
    (article_details : list string) (s4 : state W) (narrative : string) (w5 : W) :
  fetched req s symbol df s2 ->
  empty df = false ->
  discovered symbol s2 links s3 ->
  get_article_details links s3 = (Returned article_details, s4) ->
  crew_kickoff (make_crew symbol (get_latest_price df) article_details) (world s4)
    = (Returned narrative, w5) ->
  ∃ ctx s',
    home req s = (Returned (RenderIndex ctx), s') ∧
    output_text ctx = narrative ∧
    world s' = w5.
Proof.
  intros Hfetched Hrows Hnews Hdetails Hkick.
  destruct df as [|latest rest]; [discriminate|].
  destruct (last (latest :: rest)) as [oldest|] eqn:Hlast;
    [|apply last_None in Hlast; discriminate].
  destruct (home_post_rows_run _ _ _ _ latest oldest _ _ _ Hfetched Hnews eq_refl Hlast)
    as (symbols & contents & w4 & _ & _ & Hloop & Hhome).
  cbv zeta in Hloop, Hhome.
  rewrite Hloop in Hdetails. injection Hdetails as <- <-.
  cbn [world get_latest_price] in Hkick. rewrite Hkick in Hhome.
  eexists _, _. split; [exact Hhome|]. split; reflexivity.
Qed.

(** X12: every answer of the home route is the index page, and on it the
    chart, the price, the change and its class come together or not at all.
    When they are missing, the text is empty (the request was not a POST) or
    it is the no-data message for the submitted symbol. *)
Theorem home_page_all_or_nothing (req : request) (s : state W) (r : response)
    (s' : state W) :
  home req s = (Returned r, s') ->
  ∃ ctx,
    r = RenderIndex ctx ∧
    (priced ctx ∨
     unpriced ctx ∧
     (method req ≠ POST ∧ output_text ctx = "" ∨
      ∃ symbol, method req = POST ∧ form req !! "stock_symbol" = Some symbol ∧
                output_text ctx = "No data available for symbol " +:+ symbol)).
Proof.
  destruct (get_stock_symbols_returns s) as (symbols & w1 & made1 & Hsym & _).
  unfold home, bind at 1. rewrite Hsym.
  destruct (method req) eqn:Hmethod.
  1,2: unfold ret; intros [= <- _]; eexists; split; [reflexivity|];
       right; split; [repeat split|left; split; [discriminate|reflexivity]].
  unfold bind at 1, form_field.
  destruct (form req !! "stock_symbol") as [symbol|]; [|discriminate].
  unfold ret at 1. unfold bind at 1.
  destruct (get_intraday_data symbol _) as [[df|e] s2]; [|discriminate].
  unfold bind at 1.
  destruct (get_stock_news symbol s2) as [[links|e] s3]; [|discriminate].
  unfold bind at 1, get_article_details.
  destruct (article_details_from_run links [] s3) as (contents & w4 & _ & ->).
  destruct df as [|latest rest]; cbn [empty].
  - unfold ret. intros [= <- _]. eexists. split; [reflexivity|].
    right. split; [repeat split|]. right. eauto.
  - unfold bind at 1, lift at 1.
    destruct (iloc_last_close (latest :: rest)); [|discriminate].
    unfold bind at 1, lift at 1. cbn [get_latest_price percent_change].
    unfold bind at 1, try_except, call. cbn [world session flashes calls].
    destruct (crew_kickoff _ w4) as [[narrative|e] w5];
      unfold bind, record, ret; cbv iota beta; intros [= <- _];
      (eexists; split; [reflexivity|]; left; repeat split; cbn; eauto).
Qed.

(** ** The sign of the change and its class *)

Lemma leb_zero_by_class (x : float) :
  (0 <=? x)%float =
    match Prim2SF x with
    | S754_nan => false
    | S754_zero _ => true
    | S754_infinity sg | S754_finite sg _ _ => negb sg
    end.
Proof.
  rewrite FloatAxioms.leb_spec, Prim2SF_zero.
  destruct (Prim2SF x) as [[|]|[|]| |[|] m e]; reflexivity.
Qed.

(** X13: on the page, the sign printed in the change and the class of the
    change agree, a plus with positive and a minus with negative, in all
    cases but two: a change that is a negative zero prints as -0.00% and is
    classed positive, and a change that is not a number prints as +nan% and
    is classed negative. *)
Theorem home_sign_and_class (req : request) (s : state W) (symbol : string)
    (df : DataFrame) (latest oldest : bar)
    (s2 : state W) (links : list pyval) (s3 : state W) :
  fetched req s symbol df s2 ->
  discovered symbol s2 links s3 ->
  head df = Some latest ->
  last df = Some oldest ->
  let price_change := (((close latest - close oldest) / close oldest) * 100)%float in
  ∃ ctx s' shown class,
    home req s = (Returned (RenderIndex ctx), s') ∧
    price_change_text ctx = Some shown ∧
    price_change_class ctx = Some class ∧
    match Prim2SF price_change with
    | S754_nan => shown = "+nan%" ∧ class = "negative"
    | S754_zero true => shown = "-0.00%" ∧ class = "positive"
    | _ =>
        (∃ digits, shown = String "+" digits) ∧ class = "positive" ∨
        (∃ digits, shown = String "-" digits) ∧ class = "negative"
    end.
Proof.
  intros Hfetched Hnews Hhead Hlast price_change.
  destruct (home_post_rows_run _ _ _ _ _ _ _ _ _ Hfetched Hnews Hhead Hlast)
    as (symbols & contents & w4 & _ & _ & _ & Hhome).
  cbv zeta in Hhome. fold price_change in Hhome.
  destruct (crew_kickoff _ w4) as [r w5].
  clearbody price_change.
  eexists _, _, _, _. split; [exact Hhome|].
  cbn [price_change_text price_change_class].
  split; [reflexivity|]. split; [reflexivity|].
  rewrite leb_zero_by_class. unfold format_plus_2f.
  destruct (Prim2SF price_change) as [[|]|[|]| |[|] m e]; cbn [negb].
  - split; reflexivity.
  - left. split; [eexists|]; reflexivity.
  - right. split; [eexists|]; reflexivity.
  - left. split; [eexists|]; reflexivity.
  - split; reflexivity.
  - right. split; [eexists|]; reflexivity.
  - left. split; [eexists|]; reflexivity.
Qed.

Lemma Prim2SF_hundred :
  Prim2SF 100%float = S754_finite false 7036874417766400 (-46).
Proof. reflexivity. Qed.

(** The change between two equal closes: a zero with the sign of the close
    when the close is finite and not zero, and not a number otherwise. *)
Lemma unchanged_close (c : float) :
  Prim2SF (((c - c) / c) * 100)%float =
    match Prim2SF c with
    | S754_finite sg _ _ => S754_zero sg
    | _ => S754_nan
    end.
Proof.
  rewrite FloatAxioms.mul_spec, FloatAxioms.div_spec, FloatAxioms.sub_spec,
    Prim2SF_hundred.
  destruct (Prim2SF c) as [[|]|[|]| |sg m e]; try reflexivity.
  unfold SF64sub, SFsub. cbv zeta. rewrite Z.sub_diag.
  destruct sg; reflexivity.
Qed.

(** X14: when the first and the last row of the frame close at the same
    price, as they do in a frame of one row, the page shows no movement: for
    a close above zero the change is +0.00% with the class positive (for a
    finite close below zero, -0.00% with the class positive).  When that
    close is zero, infinite or not a number, the change is +nan% and its
    class is negative. *)
Theorem home_unchanged_close (req : request) (s : state W) (symbol : string)
    (df : DataFrame) (latest oldest : bar)
    (s2 : state W) (links : list pyval) (s3 : state W) :
  fetched req s symbol df s2 ->
  discovered symbol s2 links s3 ->
  head df = Some latest ->
  last df = Some oldest ->
  close latest = close oldest ->
  ∃ ctx s',
    home req s = (Returned (RenderIndex ctx), s') ∧
    match Prim2SF (close latest) with
    | S754_finite sg _ _ =>
        price_change_text ctx = Some (if sg then "-0.00%" else "+0.00%") ∧
        price_change_class ctx = Some "positive"
    | _ =>
        price_change_text ctx = Some "+nan%" ∧
        price_change_class ctx = Some "negative"
    end.
Proof.
  intros Hfetched Hnews Hhead Hlast Hsame.
  destruct (home_post_rows_run _ _ _ _ _ _ _ _ _ Hfetched Hnews Hhead Hlast)
    as (symbols & contents & w4 & _ & _ & _ & Hhome).
  cbv zeta in Hhome. rewrite <- Hsame in Hhome.
  destruct (crew_kickoff _ w4) as [r w5].
  eexists _, _. split; [exact Hhome|].
  cbn [price_change_text price_change_class].
  rewrite leb_zero_by_class. unfold format_plus_2f.
  rewrite unchanged_close.
  destruct (Prim2SF (close latest)) as [[|]|[|]| |[|] m e]; split; reflexivity.
Qed.

(** ** News discovery, once more *)

Lemma article_links_first_stranger (before after : list pyval) (stranger : pyval) :
  forallb is_dict before = true ->
  is_dict stranger = false ->
  article_links (before ++ stranger :: after)
    = Raised (Exn "AttributeError"
                ("'" +:+ type_name stranger +:+ "' object has no attribute 'get'")).
Proof.
  induction before as [|article rest IH]; cbn [app forallb article_links].
  - intros _ Hs. destruct stranger; try discriminate; reflexivity.
  - intros [Hd Hrest]%andb_prop Hs.
    destruct article; try discriminate. cbn. now rewrite (IH Hrest Hs).
Qed.

Lemma article_links_raises (articles : list pyval) :
  raises (article_links articles) = negb (forallb is_dict articles).
Proof.
  induction articles as [|article rest IH]; [reflexivity|].
  cbn [article_links forallb].
  destruct article; try reflexivity.
  cbn. destruct (article_links rest); cbn in *; now rewrite <- IH.
Qed.

(** X15: when the provider's document is an object whose news field is a
    list, [get_stock_news] raises exactly when some article of the list is
    not an object; the exception is the attribute error of the first such
    article.  When it returns, it returns one value per article, in order:
    the value under link, of whatever type it is, or the empty string. *)
Theorem get_stock_news_list_of_articles (symbol : string) (s : state W)
    (entries : list (string * pyval)) (articles : list pyval) (w : W) :
  serper_news (news_payload symbol) news_headers (world s)
    = (Returned (PyDict entries), w) ->
  dict_lookup "news" entries = Some (PyList articles) ->
  raises (fst (get_stock_news symbol s)) = negb (forallb is_dict articles) ∧
  (∀ links, fst (get_stock_news symbol s) = Returned links ->
     links = map link_or_blank articles ∧ length links = length articles) ∧
  (∀ before stranger after,
     articles = before ++ stranger :: after ->
     forallb is_dict before = true -> is_dict stranger = false ->
     fst (get_stock_news symbol s)
       = Raised (Exn "AttributeError"
                   ("'" +:+ type_name stranger +:+ "' object has no attribute 'get'"))).
Proof.
  intros Hserper Hnews. rewrite get_stock_news_run, Hserper. cbn [fst py_get].
  rewrite Hnews. cbn [py_iter]. split; [apply article_links_raises|]. split.
  - intros links Hlinks.
    assert (Hdicts : forallb is_dict articles = true).
    { pose proof (article_links_raises articles) as Hr. rewrite Hlinks in Hr.
      cbn in Hr. now destruct (forallb is_dict articles). }
    rewrite (article_links_dicts _ Hdicts) in Hlinks. injection Hlinks as <-.
    split; [reflexivity|apply length_map].
  - intros before stranger after -> Hbefore Hstranger.
    now apply article_links_first_stranger.
Qed.

(** X16: the edges of the provider's document.  A document that is not an
    object raises the attribute error of its type.  In an object, a news
    field that is an empty string, an empty object or an empty list gives
    the empty list of links; a news field that is a non-empty string or a
    non-empty object raises the attribute error of [str], since its
    characters, or its keys, have no [get]. *)
Theorem get_stock_news_document_edges (symbol : string) (s : state W)
    (document : pyval) (w : W) :
  serper_news (news_payload symbol) news_headers (world s) = (Returned document, w) ->
  let s' := State w (session s) (flashes s)
              (calls s ++ [NewsSearch (news_payload symbol)]) in
  let no_get (v : pyval) :=
    Exn "AttributeError" ("'" +:+ type_name v +:+ "' object has no attribute 'get'") in
  (is_dict document = false ->
   get_stock_news symbol s = (Raised (no_get document), s')) ∧
  (∀ entries news, document = PyDict entries ->
     dict_lookup "news" entries = Some news ->
     news = PyStr "" ∨ news = PyDict [] ∨ news = PyList [] ->
     get_stock_news symbol s = (Returned [], s')) ∧
  (∀ entries c rest, document = PyDict entries ->
     dict_lookup "news" entries = Some (PyStr (String c rest)) ->
     get_stock_news symbol s = (Raised (no_get (PyStr "")), s')) ∧
  (∀ entries kv rest, document = PyDict entries ->
     dict_lookup "news" entries = Some (PyDict (kv :: rest)) ->
     get_stock_news symbol s = (Raised (no_get (PyStr "")), s')).
Proof.
  intros Hserper s' no_get. rewrite get_stock_news_run, Hserper. subst s' no_get.
  repeat split.
  - intros Hd. destruct document; try discriminate; reflexivity.
  - intros entries news -> Hnews [->|[->| ->]]; cbn; now rewrite Hnews.
  - intros entries c rest -> Hnews. cbn. now rewrite Hnews.
  - intros entries kv rest -> Hnews. cbn. now rewrite Hnews.
Qed.

(** ** A failure of news discovery on a frame with rows *)

(** X17: on a POST, an exception of news discovery leaves the home route
    as it is, whether the frame has rows or not: the quotes that were
    fetched are not shown, and after the news search no page is fetched, no
    text scored, no agent run and no chart rendered. *)
Theorem home_news_failure_loses_the_page (req : request) (s : state W)
    (symbol : string) (df : DataFrame) (s2 : state W) (e : exn) (s3 : state W) :
  fetched req s symbol df s2 ->
  get_stock_news symbol s2 = (Raised e, s3) ->
  home req s = (Raised e, s3) ∧
  calls s3 = calls s2 ++ [NewsSearch (news_payload symbol)] ∧
  session s3 = session s ∧ flashes s3 = flashes s.
Proof.
  intros Hfetched Hnews.
  split; [exact (home_post_news_raised _ _ _ _ _ _ _ Hfetched Hnews)|].
  destruct Hfetched as (_ & _ & Hquote).
  destruct (get_stock_symbols_returns s) as (symbols & w1 & made1 & Hsym & _).
  rewrite Hsym in Hquote. cbn [snd] in Hquote.
  rewrite get_intraday_data_run in Hquote. cbn [world session flashes calls] in Hquote.
  destruct (ts_get_intraday _ _ _ _ _) as [r2 w2]. injection Hquote as _ <-.
  rewrite get_stock_news_run in Hnews. cbn [world session flashes calls] in Hnews.
  destruct (serper_news _ _ _) as [r3 w3]. injection Hnews as _ <-.
  repeat split.
Qed.

End Further.

(** * Further runs on concrete requests *)

(** Three links, one of them without a scheme: three entries, six calls. *)
Lemma get_article_details_three_links :
  ∃ entries s',
    get_article_details calm_links (fresh calm) = (Returned entries, s') ∧
    length entries = 3%nat ∧
    length (calls s') = 6%nat.
Proof.
  destruct (get_article_details_one_entry_per_link calm_links (fresh calm))
    as (contents & w & _ & Hrun & Hentries & Hcalls & _).
  eexists _, _. split; [exact Hrun|]. split; [exact Hentries|exact Hcalls].
Defined.

(** A link without a scheme makes [requests.get] raise: the text handed on
    is the message of the exception. *)
Lemma fetch_article_content_no_scheme :
  ∃ w,
    fetch_article_content (PyStr "") (fresh calm)
      = (Returned "Invalid URL '': No scheme supplied.",
         State w ∅ [] [HttpGet (PyStr "")]).
Proof.
  destruct (fetch_article_content_never_raises (PyStr "") [] [] (fresh calm))
    as (content & w & _ & Hrun & Hraise & _).
  exists w. rewrite Hrun.
  now rewrite (Hraise (Exn "MissingSchema" "Invalid URL '': No scheme supplied.") eq_refl).
Defined.

(** A missing catalog file: one read, one line on the standard output. *)
Lemma get_stock_symbols_reads_once_no_catalog :
  catalog_unreadable (fresh no_catalog) ∧
  ∃ w why,
    get_stock_symbols (fresh no_catalog)
      = (Returned [],
         State w ∅ []
           [ReadCsv "static/stock_symbols.csv"; Stdout ("Error reading CSV: " +:+ why)]).
Proof.
  assert (Hbad : catalog_unreadable (fresh no_catalog)) by exact I.
  split; [exact Hbad|].
  destruct (get_stock_symbols_reads_once (fresh no_catalog))
    as (symbols & w & made & Hrun & Hfail & _).
  destruct (Hfail Hbad) as (-> & why & ->).
  exists w, why. exact Hrun.
Defined.

(** A GET of the login form in the middle of a visit changes nothing. *)
Lemma login_state_effects_get :
  method (Request GET ∅) ≠ POST ∧
  login (Request GET ∅) (visited calm) = (Returned RenderLogin, visited calm).
Proof.
  assert (Hget : method (Request GET ∅) ≠ POST) by discriminate.
  split; [exact Hget|].
  destruct (login_state_effects (Request GET ∅) (visited calm))
    as (r & s' & Hrun & _ & _ & Hnot_post & _).
  destruct (Hnot_post Hget) as (-> & ->). exact Hrun.
Defined.


(** A visitor whose session says guest logs in as admin: the username is
    replaced, the theme stays. *)
Lemma login_session_read_back_visited :
  form (post [("username", "admin"); ("password", "password123")]) !! "username"
    = Some "admin" ∧
  form (post [("username", "admin"); ("password", "password123")]) !! "password"
    = Some "password123" ∧
  ∃ s',
    login (post [("username", "admin"); ("password", "password123")]) (visited calm)
      = (Returned (Redirect "/home"), s') ∧
    session s' !! "username" = Some "admin" ∧
    session s' !! "theme" = session (visited calm) !! "theme".
Proof.
  assert (Hu : form (post [("username", "admin"); ("password", "password123")])
                 !! "username" = Some "admin") by (vm_compute; reflexivity).
  assert (Hp : form (post [("username", "admin"); ("password", "password123")])
                 !! "password" = Some "password123") by (vm_compute; reflexivity).
  split; [exact Hu|]. split; [exact Hp|].
  destruct (login_session_read_back
              (post [("username", "admin"); ("password", "password123")])
              (visited calm) eq_refl Hu Hp)
    as (s' & Hrun & Hname & Hothers & _).
  exists s'. split; [exact Hrun|]. split; [exact Hname|].
  apply Hothers. discriminate.
Defined.

(** The same POST from a fresh state and in the middle of a visit: the same
    answer, the same calls, the session of the visit untouched. *)
Lemma home_ignores_session_visited :
  ∃ r made,
    home (post [("stock_symbol", "AAPL")]) (fresh calm) = (r, State calm ∅ [] made) ∧
    home (post [("stock_symbol", "AAPL")]) (visited calm)
      = (r, State calm (session (visited calm)) ["Welcome back."]
              (Stdout "earlier request" :: made)).
Proof.
  destruct (home_ignores_session (post [("stock_symbol", "AAPL")]) calm)
    as (r & w' & made & Hrun).
  assert (Hw : w' = calm).
  { pose proof (Hrun ∅ [] []) as Hfresh.
    apply (f_equal (λ p, world (snd p))) in Hfresh. cbn [snd world] in Hfresh.
    rewrite <- Hfresh. vm_compute. reflexivity. }
  subst w'. exists r, made. split.
  - exact (Hrun ∅ [] []).
  - exact (Hrun _ ["Welcome back."] [Stdout "earlier request"]).
Defined.

(** A GET of the home page: the catalog is read, nothing else is called. *)
Lemma home_without_submission_get :
  method (Request GET ∅) ≠ POST ∧
  ∃ symbols w made,
    fst (get_stock_symbols (fresh calm)) = Returned symbols ∧
    home (Request GET ∅) (fresh calm)
      = (Returned (RenderIndex
           {| output_text := "";
              graph_html := None;
              stock_symbols := symbols;
              stock_price := None;
              price_change_text := None;
              price_change_class := None |}),
         State w ∅ [] (ReadCsv "static/stock_symbols.csv" :: made)) ∧
    forallb is_stdout made = true.
Proof.
  assert (Hget : method (Request GET ∅) ≠ POST) by discriminate.
  split; [exact Hget|].
  exact (home_without_submission (Request GET ∅) (fresh calm) Hget).
Defined.


(** The calls of a POST for AAPL, from the catalog read to the chart. *)
Lemma home_call_order_aapl :
  fetched (post [("stock_symbol", "AAPL")]) (fresh calm) "AAPL" aapl
    (after_quotes "AAPL" calm) ∧
  discovered "AAPL" (after_quotes "AAPL" calm) calm_links (after_news "AAPL" calm) ∧
  ∃ ctx s' contents errors,
    home (post [("stock_symbol", "AAPL")]) (fresh calm)
      = (Returned (RenderIndex ctx), s') ∧
    length contents = 3%nat ∧
    forallb is_stdout errors = true ∧
    calls s' =
      ReadCsv "static/stock_symbols.csv" :: errors
        ++ GetIntraday "AAPL" :: NewsSearch (news_payload "AAPL")
        :: article_calls calm_links contents
        ++ [ Kickoff (make_crew "AAPL" (Some 195%float)
                        (zip_with article_entry calm_links contents));
             ToHtml (make_figure "AAPL" aapl) ].
Proof.
  assert (Hf : fetched (post [("stock_symbol", "AAPL")]) (fresh calm) "AAPL" aapl
                 (after_quotes "AAPL" calm))
    by (repeat split; vm_compute; reflexivity).
  assert (Hn : discovered "AAPL" (after_quotes "AAPL" calm) calm_links
                 (after_news "AAPL" calm))
    by (vm_compute; reflexivity).
  split; [exact Hf|]. split; [exact Hn|].
  exact (home_call_order _ _ _ _
           (quiet_bar "2024-05-01 16:00:00" 195) (quiet_bar "2024-05-01 15:35:00" 190)
           _ _ _ Hf Hn eq_refl eq_refl).
Defined.

(** The agent run returns: its text is on the page. *)
Lemma home_kickoff_returns_calm :
  fetched (post [("stock_symbol", "AAPL")]) (fresh calm) "AAPL" aapl
    (after_quotes "AAPL" calm) ∧
  empty aapl = false ∧
  discovered "AAPL" (after_quotes "AAPL" calm) calm_links (after_news "AAPL" calm) ∧
  get_article_details calm_links (after_news "AAPL" calm)
    = (Returned calm_details, after_articles "AAPL" calm) ∧
  crew_kickoff (make_crew "AAPL" (get_latest_price aapl) calm_details)
      (world (after_articles "AAPL" calm))
    = (Returned "Hold: sentiment is mixed.", calm) ∧
  ∃ ctx s',
    home (post [("stock_symbol", "AAPL")]) (fresh calm)
      = (Returned (RenderIndex ctx), s') ∧
    output_text ctx = "Hold: sentiment is mixed." ∧
    world s' = calm.
Proof.
  assert (Hf : fetched (post [("stock_symbol", "AAPL")]) (fresh calm) "AAPL" aapl
                 (after_quotes "AAPL" calm))
    by (repeat split; vm_compute; reflexivity).
  assert (Hn : discovered "AAPL" (after_quotes "AAPL" calm) calm_links
                 (after_news "AAPL" calm))
    by (vm_compute; reflexivity).
  assert (Hd : get_article_details calm_links (after_news "AAPL" calm)
                 = (Returned calm_details, after_articles "AAPL" calm))
    by (vm_compute; reflexivity).
  assert (Hk : crew_kickoff (make_crew "AAPL" (get_latest_price aapl) calm_details)
                   (world (after_articles "AAPL" calm))
                 = (Returned "Hold: sentiment is mixed.", calm))
    by (vm_compute; reflexivity).
  repeat (split; [assumption || reflexivity|]).
  exact (home_kickoff_returns _ _ _ _ _ _ _ _ _ _ _ Hf eq_refl Hn Hd Hk).
Defined.

(** The page of a POST for a symbol without quotes has none of the four. *)
Lemma home_page_all_or_nothing_unknown_symbol :
  home (post [("stock_symbol", "NONE")]) (fresh calm)
    = (Returned (RenderIndex
         {| output_text := "No data available for symbol NONE";
            graph_html := None;
            stock_symbols := [PyStr "AAPL"; PyStr "MSFT"];
            stock_price := None;
            price_change_text := None;
            price_change_class := None |}),
       snd (home (post [("stock_symbol", "NONE")]) (fresh calm))) ∧
  ∃ ctx,
    fst (home (post [("stock_symbol", "NONE")]) (fresh calm))
      = Returned (RenderIndex ctx) ∧
    (priced ctx ∨
     unpriced ctx ∧
     (method (post [("stock_symbol", "NONE")]) ≠ POST ∧ output_text ctx = "" ∨
      ∃ symbol,
        method (post [("stock_symbol", "NONE")]) = POST ∧
        form (post [("stock_symbol", "NONE")]) !! "stock_symbol" = Some symbol ∧
        output_text ctx = "No data available for symbol " +:+ symbol)).
Proof.
  assert (Hhome : home (post [("stock_symbol", "NONE")]) (fresh calm)
    = (Returned (RenderIndex
         {| output_text := "No data available for symbol NONE";
            graph_html := None;
            stock_symbols := [PyStr "AAPL"; PyStr "MSFT"];
            stock_price := None;
            price_change_text := None;
            price_change_class := None |}),
       snd (home (post [("stock_symbol", "NONE")]) (fresh calm))))
    by (vm_compute; reflexivity).
  split; [exact Hhome|].
  destruct (home_page_all_or_nothing _ _ _ _ Hhome) as (ctx & Hctx & Hshape).
  exists ctx. split; [|exact Hshape].
  rewrite Hhome. cbn [fst]. now rewrite Hctx.
Defined.

(** Two bars closing at zero: the change is not a number, it prints with a
    plus and is classed negative. *)
Lemma home_sign_and_class_worthless :
  fetched (post [("stock_symbol", "ZERO")]) (fresh thin) "ZERO" worthless
    (after_quotes "ZERO" thin) ∧
  discovered "ZERO" (after_quotes "ZERO" thin) calm_links (after_news "ZERO" thin) ∧
  ∃ ctx s',
    home (post [("stock_symbol", "ZERO")]) (fresh thin)
      = (Returned (RenderIndex ctx), s') ∧
    price_change_text ctx = Some "+nan%" ∧
    price_change_class ctx = Some "negative".
Proof.
  assert (Hf : fetched (post [("stock_symbol", "ZERO")]) (fresh thin) "ZERO" worthless
                 (after_quotes "ZERO" thin))
    by (repeat split; vm_compute; reflexivity).
  assert (Hn : discovered "ZERO" (after_quotes "ZERO" thin) calm_links
                 (after_news "ZERO" thin))
    by (vm_compute; reflexivity).
  split; [exact Hf|]. split; [exact Hn|].
  destruct (home_sign_and_class _ _ _ _
              (quiet_bar "2024-05-01 16:00:00" 0) (quiet_bar "2024-05-01 15:55:00" 0)
              _ _ _ Hf Hn eq_refl eq_refl)
    as (ctx & s' & shown & class & Hhome & Htext & Hclass & Hcase).
  change (shown = "+nan%" ∧ class = "negative") in Hcase.
  destruct Hcase as [-> ->]. eauto.
Defined.

(** A frame of one bar at 120.0: no movement. *)
Lemma home_unchanged_close_single :
  fetched (post [("stock_symbol", "ONE")]) (fresh thin) "ONE" single
    (after_quotes "ONE" thin) ∧
  discovered "ONE" (after_quotes "ONE" thin) calm_links (after_news "ONE" thin) ∧
  ∃ ctx s',
    home (post [("stock_symbol", "ONE")]) (fresh thin)
      = (Returned (RenderIndex ctx), s') ∧
    price_change_text ctx = Some "+0.00%" ∧
    price_change_class ctx = Some "positive".
Proof.
  assert (Hf : fetched (post [("stock_symbol", "ONE")]) (fresh thin) "ONE" single
                 (after_quotes "ONE" thin))
    by (repeat split; vm_compute; reflexivity).
  assert (Hn : discovered "ONE" (after_quotes "ONE" thin) calm_links
                 (after_news "ONE" thin))
    by (vm_compute; reflexivity).
  split; [exact Hf|]. split; [exact Hn|].
  destruct (home_unchanged_close _ _ _ _
              (quiet_bar "2024-05-01 16:00:00" 120) (quiet_bar "2024-05-01 16:00:00" 120)
              _ _ _ Hf Hn eq_refl eq_refl eq_refl)
    as (ctx & s' & Hhome & Hcase).
  change (price_change_text ctx = Some "+0.00%" ∧
          price_change_class ctx = Some "positive") in Hcase.
  eauto.
Defined.

(** A link that is a number comes back as that number; a news list that
    holds a string raises the attribute error of [str]. *)
Lemma get_stock_news_list_of_articles_runs :
  serper_news (news_payload "AAPL") news_headers (world (fresh numeric_link))
    = (news numeric_link, numeric_link) ∧
  fst (get_stock_news "AAPL" (fresh numeric_link)) = Returned [PyInt 7; good_url] ∧
  serper_news (news_payload "AAPL") news_headers (world (fresh string_article))
    = (news string_article, string_article) ∧
  fst (get_stock_news "AAPL" (fresh string_article))
    = Raised (Exn "AttributeError" "'str' object has no attribute 'get'").
Proof.
  assert (H1 : serper_news (news_payload "AAPL") news_headers
                 (world (fresh numeric_link)) = (news numeric_link, numeric_link))
    by reflexivity.
  assert (H2 : serper_news (news_payload "AAPL") news_headers
                 (world (fresh string_article)) = (news string_article, string_article))
    by reflexivity.
  split; [exact H1|]. split; [|split; [exact H2|]].
  - destruct (get_stock_news_list_of_articles "AAPL" (fresh numeric_link) _ _ _
                H1 eq_refl) as (Hraises & Hlinks & _).
    destruct (fst (get_stock_news "AAPL" (fresh numeric_link))) as [links|e];
      [|discriminate].
    now destruct (Hlinks links eq_refl) as [-> _].
  - destruct (get_stock_news_list_of_articles "AAPL" (fresh string_article) _ _ _
                H2 eq_refl) as (_ & _ & Hfirst).
    exact (Hfirst [] (PyStr "Rally") [] eq_refl eq_refl eq_refl).
Defined.

(** A document that is a list, a news field that is an empty string, and a
    news field that is a sentence. *)
Lemma get_stock_news_document_edges_runs :
  serper_news (news_payload "AAPL") news_headers (world (fresh list_document))
    = (Returned (PyList []), list_document) ∧
  fst (get_stock_news "AAPL" (fresh list_document))
    = Raised (Exn "AttributeError" "'list' object has no attribute 'get'") ∧
  serper_news (news_payload "AAPL") news_headers (world (fresh blank_news))
    = (Returned (PyDict [("news", PyStr "")]), blank_news) ∧
  fst (get_stock_news "AAPL" (fresh blank_news)) = Returned [] ∧
  serper_news (news_payload "AAPL") news_headers (world (fresh text_news))
    = (Returned (PyDict [("news", PyStr "none today")]), text_news) ∧
  fst (get_stock_news "AAPL" (fresh text_news))
    = Raised (Exn "AttributeError" "'str' object has no attribute 'get'").
Proof.
  assert (H1 : serper_news (news_payload "AAPL") news_headers
                 (world (fresh list_document))
               = (Returned (PyList []), list_document)) by reflexivity.
  assert (H2 : serper_news (news_payload "AAPL") news_headers (world (fresh blank_news))
               = (Returned (PyDict [("news", PyStr "")]), blank_news)) by reflexivity.
  assert (H3 : serper_news (news_payload "AAPL") news_headers (world (fresh text_news))
               = (Returned (PyDict [("news", PyStr "none today")]), text_news))
    by reflexivity.
  split; [exact H1|]. split; [|split; [exact H2|split; [|split; [exact H3|]]]].
  - destruct (get_stock_news_document_edges "AAPL" (fresh list_document) _ _ H1)
      as (Hstranger & _).
    now rewrite (Hstranger eq_refl).
  - destruct (get_stock_news_document_edges "AAPL" (fresh blank_news) _ _ H2)
      as (_ & Hblank & _).
    now rewrite (Hblank _ _ eq_refl eq_refl (or_introl eq_refl)).
  - destruct (get_stock_news_document_edges "AAPL" (fresh text_news) _ _ H3)
      as (_ & _ & Htext & _).
    now rewrite (Htext _ _ _ eq_refl eq_refl).
Defined.

(** Quotes for AAPL are there, the news field is null: no page. *)
Lemma home_news_failure_null_news :
  fetched (post [("stock_symbol", "AAPL")]) (fresh null_news) "AAPL" aapl
    (after_quotes "AAPL" null_news) ∧
  get_stock_news "AAPL" (after_quotes "AAPL" null_news)
    = (Raised (Exn "TypeError" "'NoneType' object is not iterable"),
       after_news "AAPL" null_news) ∧
  home (post [("stock_symbol", "AAPL")]) (fresh null_news)
    = (Raised (Exn "TypeError" "'NoneType' object is not iterable"),
       after_news "AAPL" null_news) ∧
  calls (after_news "AAPL" null_news)
    = [ ReadCsv "static/stock_symbols.csv"; GetIntraday "AAPL";
        NewsSearch (news_payload "AAPL") ].
Proof.
  assert (Hf : fetched (post [("stock_symbol", "AAPL")]) (fresh null_news) "AAPL" aapl
                 (after_quotes "AAPL" null_news))
    by (repeat split; vm_compute; reflexivity).
  assert (Hn : get_stock_news "AAPL" (after_quotes "AAPL" null_news)
                 = (Raised (Exn "TypeError" "'NoneType' object is not iterable"),
                    after_news "AAPL" null_news))
    by (vm_compute; reflexivity).
  split; [exact Hf|]. split; [exact Hn|].
  destruct (home_news_failure_loses_the_page _ _ _ _ _ _ _ Hf Hn)
    as (Hhome & Hcalls & _).
  split; [exact Hhome|]. rewrite Hcalls. vm_compute. reflexivity.
Defined.
